(** * unslop: run ledger, change selection and artifact reuse

    A shallow embedding of [src/unslop/unslop_dir_management.py] and
    [src/unslop/diagram.py].

    - Python [str] values are Rocq [string]s; a character is a code point
      below 256, which is enough for every literal the code uses.
    - A [pathlib.Path] is the list of its segments, outermost first.
    - The filesystem is a finite map from paths to nodes; functions that
      touch it, log, or raise run in a small state-and-exception monad.
    - [manifest.py] and [code2diagram.py] are collaborators: they appear
      as the fields of the class [Collaborators]. *)

From Stdlib Require Import ZArith String Ascii List Lia Permutation Sorted.
From stdpp Require Import base tactics option list gmap sets strings sorting.

Open Scope string_scope.
Open Scope list_scope.

Set Warnings "-clear-no-such-hyp".

(** ** Characters and strings *)

Definition newline : ascii := ascii_of_nat 10.

(** [\d] on code points below 256: the ten ASCII digits. *)
Definition is_digit (c : ascii) : bool :=
  let n := nat_of_ascii c in (48 <=? n)%nat && (n <=? 57)%nat.

Definition digit_char (d : N) : ascii := ascii_of_N (48 + d).

(** The [w] low decimal digits of [n], most significant first. *)
Fixpoint pad_dec (w : nat) (n : N) : string :=
  match w with
  | O => ""
  | S w' => pad_dec w' (n / 10) +:+ String (digit_char (n mod 10)) ""
  end.

Fixpoint dec_aux (fuel : nat) (n : N) (acc : string) : string :=
  match fuel with
  | O => acc
  | S fuel' =>
      let acc' := String (digit_char (n mod 10)) acc in
      if (n <? 10)%N then acc' else dec_aux fuel' (n / 10) acc'
  end.

(** [str(n)] for a natural number; its bit length bounds its digits. *)
Definition dec (n : N) : string := dec_aux (S (N.size_nat n)) n "".

(** [f"{n:0{w}d}"]: zero padded to at least [w] digits. *)
Definition fmt_0d (w : nat) (n : N) : string :=
  if (n <? 10 ^ N.of_nat w)%N then pad_dec w n else dec n.

(** [s.startswith(p)] *)
Fixpoint startswith (s p : string) : bool :=
  match p, s with
  | "", _ => true
  | String a p', String b s' => if Ascii.eqb a b then startswith s' p' else false
  | String _ _, "" => false
  end.

(** [s[n:]] *)
Fixpoint drop_chars (n : nat) (s : string) : string :=
  match n, s with
  | O, _ => s
  | S n', String _ s' => drop_chars n' s'
  | S _, "" => ""
  end.

(** [s.rstrip(c)] for a single character [c]. *)
Fixpoint rstrip_char (c : ascii) (s : string) : string :=
  match s with
  | "" => ""
  | String a s' =>
      let r := rstrip_char c s' in
      if bool_decide (r = "") && Ascii.eqb a c then "" else String a r
  end.

(** [sep.join(parts)] *)
Fixpoint join (sep : string) (parts : list string) : string :=
  match parts with
  | [] => ""
  | [x] => x
  | x :: rest => x +:+ sep +:+ join sep rest
  end.

(** The characters [str.isspace] accepts below code point 256. *)
Definition is_space (c : ascii) : bool :=
  let n := nat_of_ascii c in
  ((9 <=? n)%nat && (n <=? 13)%nat) || ((28 <=? n)%nat && (n <=? 32)%nat)
  || (n =? 133)%nat || (n =? 160)%nat.

(** [s.rstrip()] *)
Fixpoint rstrip (s : string) : string :=
  match s with
  | "" => ""
  | String a s' =>
      let r := rstrip s' in
      if bool_decide (r = "") && is_space a then "" else String a r
  end.

(** Line boundaries of [str.splitlines] below code point 256. *)
Definition is_linebreak (c : ascii) : bool :=
  let n := nat_of_ascii c in
  ((10 <=? n)%nat && (n <=? 13)%nat) || ((28 <=? n)%nat && (n <=? 30)%nat)
  || (n =? 133)%nat.

(** [text.splitlines()]: [cur] is the line being read, reversed. *)
Fixpoint splitlines_aux (s : string) (cur : list ascii) : list string :=
  match s with
  | "" => match cur with [] => [] | _ => [string_of_list_ascii (rev cur)] end
  | String c s' =>
      if is_linebreak c then
        string_of_list_ascii (rev cur) ::
          match s' with
          | String c' s'' =>
              if Ascii.eqb c (ascii_of_nat 13) && Ascii.eqb c' newline
              then splitlines_aux s'' [] else splitlines_aux s' []
          | "" => []
          end
      else splitlines_aux s' (c :: cur)
  end.

Definition splitlines (s : string) : list string := splitlines_aux s [].

(** ** Paths and the filesystem *)

Abbreviation Path := (list string).

Definition child (d : Path) (n : string) : Path := d ++ [n].
Definition parent (p : Path) : Path := removelast p.
Definition name (p : Path) : string := default "" (last p).

(** [p.relative_to(base)]: the segments of [p] below [base], or [None]
    where Python raises [ValueError]. *)
Fixpoint relative_to (p base : Path) : option (list string) :=
  match base, p with
  | [], _ => Some p
  | b :: base', x :: p' => if bool_decide (b = x) then relative_to p' base' else None
  | _ :: _, [] => None
  end.

(** [rel.as_posix()] for a relative path. *)
Definition as_posix (parts : list string) : string :=
  match parts with [] => "." | _ => join "/" parts end.

(** Split a string at ["/"]; [cur] is the segment being read, reversed. *)
Fixpoint split_slash (s : string) (cur : list ascii) : list string :=
  match s with
  | "" => [string_of_list_ascii (rev cur)]
  | String c s' =>
      if Ascii.eqb c "/" then string_of_list_ascii (rev cur) :: split_slash s' []
      else split_slash s' (c :: cur)
  end.

(** [d / s]: empty and ["."] segments of [s] vanish, an absolute [s]
    replaces [d]; [".."] stays a segment, as in pathlib. *)
Definition joinpath (d : Path) (s : string) : Path :=
  let segs := filter (λ x, x ≠ "" ∧ x ≠ ".") (split_slash s []) in
  if startswith s "/" then segs else d ++ segs.

Inductive Node := File (content : string) | Dir.

#[global] Instance Node_eq_dec : EqDecision Node.
Proof. solve_decision. Defined.

Abbreviation FS := (gmap (list string) Node).

Definition is_file (fs : FS) (p : Path) : bool :=
  match fs !! p with Some (File _) => true | _ => false end.
Definition is_dir (fs : FS) (p : Path) : bool :=
  match fs !! p with Some Dir => true | _ => false end.
Definition exists_ (fs : FS) (p : Path) : bool :=
  match fs !! p with Some _ => true | None => false end.

(** [d.iterdir()]: the entries directly below [d], in no particular order. *)
Definition iterdir (fs : FS) (d : Path) : list Path :=
  filter (λ p, p ≠ [] ∧ parent p = d) (map_to_list fs).*1.

(** Every entry other than the top sits in a directory. *)
Definition wf_fs (fs : FS) : Prop :=
  map_Forall (λ p _, p ≠ [] → fs !! parent p = Some Dir) fs.

#[global] Instance wf_fs_dec fs : Decision (wf_fs fs).
Proof. unfold wf_fs. apply _. Defined.

(** ** Effects: state, log and exceptions *)

Inductive Level := INFO | WARNING | ERROR | EXCEPTION.

Record LogRecord := { lr_level : Level; lr_msg : string }.

(** The Python exceptions the model raises ([Exception] subclasses). *)
Inductive exn :=
  | FileNotFoundError | FileExistsError | IsADirectoryError | NotADirectoryError
  | ValueError | AttributeError | ServiceError (msg : string).

(** A request to run the per-node work on a background thread. *)
Record NodeJob := {
  job_schema : Path; job_source : Path; job_output : Path;
  job_previous : option Path }.

Record State := {
  st_fs : FS;
  st_log : list LogRecord;
  st_threads : list NodeJob }.

Inductive result (A : Type) := Ok (a : A) | Raise (e : exn).
Arguments Ok {A} a.
Arguments Raise {A} e.

Definition M (A : Type) : Type := State → result A * State.

Definition ret {A} (a : A) : M A := λ s, (Ok a, s).
Definition bind {A B} (m : M A) (k : A → M B) : M B :=
  λ s, match m s with
       | (Ok a, s') => k a s'
       | (Raise e, s') => (Raise e, s')
       end.
Definition raise {A} (e : exn) : M A := λ s, (Raise e, s).

(** [try: m except Exception as exc: h exc] *)
Definition try_except {A} (m : M A) (h : exn → M A) : M A :=
  λ s, match m s with
       | (Ok a, s') => (Ok a, s')
       | (Raise e, s') => h e s'
       end.

Notation "x <- m ;; k" := (bind m (λ x, k))
  (at level 200, m at level 99, k at level 200, right associativity).
Notation "'do' m ;; k" := (bind m (λ _, k))
  (at level 10, m at level 99, k at level 200).

(** The state with its filesystem replaced. *)
Definition set_fs (s : State) (fs : FS) : State :=
  {| st_fs := fs; st_log := st_log s; st_threads := st_threads s |}.

(** The state with one more log record. *)
Definition add_log (s : State) (l : Level) (msg : string) : State :=
  {| st_fs := st_fs s;
     st_log := st_log s ++ [{| lr_level := l; lr_msg := msg |}];
     st_threads := st_threads s |}.

Definition get_fs : M FS := λ s, (Ok (st_fs s), s).
Definition put_fs (fs : FS) : M unit := λ s, (Ok tt, set_fs s fs).
Definition logger (l : Level) (msg : string) : M unit :=
  λ s, (Ok tt, add_log s l msg).
Definition spawn (j : NodeJob) : M unit :=
  λ s, (Ok tt, {| st_fs := st_fs s; st_log := st_log s;
                  st_threads := st_threads s ++ [j] |}).

(** [p.mkdir(exist_ok=...)], without [parents]. *)
Definition mkdir (exist_ok : bool) (p : Path) : M unit :=
  fs <- get_fs ;;
  match fs !! p with
  | Some Dir => if exist_ok then ret tt else raise FileExistsError
  | Some (File _) => raise FileExistsError
  | None =>
      match fs !! parent p with
      | Some Dir => put_fs (<[p := Dir]> fs)
      | Some (File _) => raise NotADirectoryError
      | None => raise FileNotFoundError
      end
  end.

(** [p.unlink()] *)
Definition unlink (p : Path) : M unit :=
  fs <- get_fs ;;
  match fs !! p with
  | Some (File _) => put_fs (delete p fs)
  | Some Dir => raise IsADirectoryError
  | None => raise FileNotFoundError
  end.

(** [p.write_text(text)] *)
Definition write_text (p : Path) (text : string) : M unit :=
  fs <- get_fs ;;
  match fs !! p with
  | Some Dir => raise IsADirectoryError
  | _ =>
      match fs !! parent p with
      | Some Dir => put_fs (<[p := File text]> fs)
      | Some (File _) => raise NotADirectoryError
      | None => raise FileNotFoundError
      end
  end.

(** [p.read_text()] *)
Definition read_text (p : Path) : M string :=
  fs <- get_fs ;;
  match fs !! p with
  | Some (File c) => ret c
  | Some Dir => raise IsADirectoryError
  | None => raise FileNotFoundError
  end.

(** ** unslop_dir_management.py *)

(** [\d{n}]: consume [n] digits and return what follows. *)
Fixpoint match_digits (n : nat) (s : string) : option string :=
  match n, s with
  | O, _ => Some s
  | S n', String c s' => if is_digit c then match_digits n' s' else None
  | S _, "" => None
  end.

Definition match_lit (c : ascii) (s : string) : option string :=
  match s with
  | String a s' => if Ascii.eqb a c then Some s' else None
  | "" => None
  end.

(** [$]: the end of the string, or just before a final newline. *)
Definition match_end (s : string) : bool :=
  bool_decide (s = "") || bool_decide (s = String newline "").

(** [_RUN_DIR_RE.match(s)] for [^\d{8}T\d{6}Z-\d{4}$], as a truth value. *)
Definition _RUN_DIR_RE (s : string) : bool :=
  match
    s1 ← match_digits 8 s; s2 ← match_lit "T" s1; s3 ← match_digits 6 s2;
    s4 ← match_lit "Z" s3; s5 ← match_lit "-" s4; match_digits 4 s5
  with
  | Some rest => match_end rest
  | None => false
  end.

Definition ensure_unslop_dir (root : Path) : M Path :=
  let unslop_dir := child root ".unslop" in
  fs <- get_fs ;;
  do (if exists_ fs unslop_dir && negb (is_dir fs unslop_dir)
      then unlink unslop_dir else ret tt) ;;
  do mkdir true unslop_dir ;;
  ret unslop_dir.

(** A reading of the UTC clock. *)
Record datetime := {
  year : N; month : N; day : N; hour : N; minute : N; second : N }.

(** [t.strftime("%Y%m%dT%H%M%SZ")]; [%Y] is the plain decimal year. *)
Definition strftime (t : datetime) : string :=
  dec (year t) +:+ fmt_0d 2 (month t) +:+ fmt_0d 2 (day t) +:+ "T"
  +:+ fmt_0d 2 (hour t) +:+ fmt_0d 2 (minute t) +:+ fmt_0d 2 (second t) +:+ "Z".

(** [now] is [datetime.now(timezone.utc)] and [rnd] is
    [secrets.randbelow(10000)]. *)
Definition create_run_dir (now : datetime) (rnd : N) (root : Path) : M Path :=
  unslop_dir <- ensure_unslop_dir root ;;
  let timestamp := strftime now in
  let suffix := fmt_0d 4 rnd in
  let run_dir := child unslop_dir (timestamp +:+ "-" +:+ suffix) in
  do mkdir false run_dir ;;
  ret run_dir.

(** The order of [sorted] on strings: by code point. *)
Definition str_le (x y : string) : Prop := String.leb x y = true.

#[global] Instance str_le_dec x y : Decision (str_le x y).
Proof. unfold str_le. apply _. Defined.

(** The order of [sorted(runs, key=lambda path: path.name)]. *)
Definition name_le (p q : Path) : Prop := str_le (name p) (name q).

#[global] Instance name_le_dec p q : Decision (name_le p q).
Proof. unfold name_le. apply _. Defined.

Definition list_run_dirs (fs : FS) (root : Path) : list Path :=
  let unslop_dir := child root ".unslop" in
  if negb (is_dir fs unslop_dir) then []
  else
    let runs :=
      filter (λ p, is_dir fs p && _RUN_DIR_RE (name p)) (iterdir fs unslop_dir) in
    merge_sort name_le runs.

(** [runs[-1] if runs else None] *)
Definition latest_run_dir (fs : FS) (root : Path) : option Path :=
  last (list_run_dirs fs root).

(** ** Manifests and change sets *)

Record ManifestEntry := { content_hash : string; size : Z; mtime : Z }.

Abbreviation Entries := (gmap string ManifestEntry).

(** The summary [summarize_changes] hands to [diagram.py]: three lists,
    concatenated with [+] and searched with [in]. *)
Record Summary := {
  added : list string; modified : list string; deleted : list string }.

Record ChangeSet := {
  cs_added : gset string; cs_modified : gset string; cs_deleted : gset string }.

Definition hash_differs (previous current : Entries) (k : string) : Prop :=
  content_hash <$> previous !! k ≠ content_hash <$> current !! k.

#[global] Instance hash_differs_dec previous current k :
  Decision (hash_differs previous current k).
Proof. unfold hash_differs. apply _. Defined.

(** Modelled from the spec: [manifest.summarize_changes] is not among the
    sources. Section 4.3: [added = keys(current) − keys(previous)];
    [deleted = keys(previous) − keys(current)]; a key of both is
    [modified] iff the two content hashes differ. *)
Definition diff (previous current : Entries) : ChangeSet :=
  {| cs_added := dom current ∖ dom previous;
     cs_modified := filter (hash_differs previous current) (dom previous ∩ dom current);
     cs_deleted := dom previous ∖ dom current |}.

(** Modelled from the spec: the change set of [diff] as the three lists
    [diagram.py] reads from [summarize_changes]. *)
Definition spec_summarize_changes (previous current : Entries) : Summary :=
  let cs := diff previous current in
  {| added := elements (cs_added cs);
     modified := elements (cs_modified cs);
     deleted := elements (cs_deleted cs) |}.

(** ** Collaborators of diagram.py *)

(** A node of the overview schema: [node.get("id")], [node.get("status")]. *)
Record SchemaNode := { node_id : option string; node_status : option string }.

(** The part of a JSON document [_load_all_files] inspects. *)
#[warnings="-register-all"] Inductive json :=
  | JNull | JBool (b : bool) | JNum (n : Z) | JStr (s : string)
  | JArr (xs : list json) | JObj (kvs : list (string * json)).

Class Collaborators := {
  (** manifest.py *)
  find_previous_manifest : Path → Path → FS → option Path;
  read_manifest_entries : Path → FS → option (gmap string ManifestEntry);
  summarize_changes :
    gmap string ManifestEntry → gmap string ManifestEntry → Summary;
  (** code2diagram.py *)
  generate_overview_schema : string → string → result string;
  update_overview_schema : string → string → string → result string;
  get_overview_d2_diagram : Path → Path → M unit;
  generate_node_schema_and_diagram :
    Path → Path → Path → option (gset string) → M unit;
  (** [json.loads]; [None] where it raises *)
  json_loads : string → option json;
  (** [json.loads(text).get("nodes", [])] when that is a list of objects
      with string ids and statuses; [None] where [json.loads] raises or
      the value is not a list *)
  schema_nodes : string → option (list SchemaNode);
  (** the process environment seen by [_find_d2_bin] *)
  environ_UNSLOP_D2_BIN : option string;
  shutil_which_d2 : option string;
  is_executable_file : string → bool;
  run_d2_version : string → result Z;
  (** [Popen([d2_bin, "-", output]).communicate(content)]:
      return code, stdout and stderr, or the exception raised *)
  run_d2 : string → string → Path → result (Z * string * string) }.

(** ** diagram.py *)

Section diagram.
Context `{Collaborators}.

(** The order of [sorted] on paths: segment by segment. *)
Fixpoint path_leb (p q : list string) : bool :=
  match p, q with
  | [], _ => true
  | _ :: _, [] => false
  | x :: p', y :: q' =>
      match String.compare x y with
      | Lt => true
      | Gt => false
      | Eq => path_leb p' q'
      end
  end.

Definition path_le (p q : list string) : Prop := path_leb p q = true.

#[global] Instance path_le_dec p q : Decision (path_le p q).
Proof. unfold path_le. apply _. Defined.

(** [sorted(p for p in src_path.rglob("*") if p.is_file())] *)
Definition rglob_files (fs : FS) (src_path : Path) : list Path :=
  merge_sort path_le
    (filter (λ p, is_file fs p ∧ p ≠ src_path ∧ is_Some (relative_to p src_path))
       (map_to_list fs).*1).

(** [f"[{i}] {line}"] for [enumerate(lines, i)] *)
Fixpoint numbered (i : N) (lines : list string) : list string :=
  match lines with
  | [] => []
  | line :: rest => ("[" +:+ dec i +:+ "] " +:+ line) :: numbered (N.succ i) rest
  end.

(** One turn of the loop over [files] in [combine_src_files]. *)
Definition combine_file (fs : FS) (src_path : Path)
    (allowed_files : option (gmap string string))
    (parts : list string) (file_path : Path) : list string :=
  let rel_path := default [] (relative_to file_path src_path) in
  let rel_path_str := as_posix rel_path in
  if match allowed_files with
     | Some a => bool_decide (a !! rel_path_str = None)
     | None => false
     end
  then parts
  else if existsb (λ part, startswith part ".") rel_path then parts
  else
    let status :=
      match allowed_files with
      | Some a => if bool_decide (a = ∅) then None else a !! rel_path_str
      | None => None
      end in
    let label :=
      match status with
      | Some st => if bool_decide (st = "") then "" else " (" +:+ st +:+ ")"
      | None => ""
      end in
    let text := match fs !! file_path with Some (File c) => c | _ => "" end in
    parts ++ ["### FILE: " +:+ rel_path_str +:+ label]
          ++ numbered 1 (splitlines text) ++ [""].

(** The tail of [combine_src_files]: one header per deleted path. *)
Definition deleted_parts (allowed_files : option (gmap string string)) : list string :=
  match allowed_files with
  | Some a =>
      let deleted_files :=
        merge_sort str_le
          (filter (λ kv, kv.2 = "deleted") (map_to_list a)).*1 in
      flat_map (λ rel_path_str, ["### FILE: " +:+ rel_path_str +:+ " (deleted)"; ""])
        deleted_files
  | None => []
  end.

Definition combine_parts (fs : FS) (src_path : Path)
    (allowed_files : option (gmap string string)) : list string :=
  foldl (combine_file fs src_path allowed_files) [] (rglob_files fs src_path)
  ++ deleted_parts allowed_files.

Definition combine_src_files (src_path output_path : Path)
    (allowed_files : option (gmap string string)) : M string :=
  fs <- get_fs ;;
  if negb (exists_ fs src_path) then raise FileNotFoundError
  else
    let parts := combine_parts fs src_path allowed_files in
    let combined := rstrip (join (String newline "") parts) +:+ String newline "" in
    do write_text output_path combined ;;
    ret combined.

(** [payload.get(k)] on the items of a JSON object. *)
Definition dict_get (kvs : list (string * json)) (k : string) : option json :=
  match list_find (λ kv, kv.1 = k) kvs with
  | Some (_, (_, v)) => Some v
  | None => None
  end.

(** The prefix both loaders derive from [source_dir.relative_to(root)],
    after [rstrip("/") + "/"]; empty when the two directories coincide. *)
Definition source_prefix (relative_source : list string) : string :=
  let prefix := as_posix relative_source in
  if bool_decide (prefix ≠ "") && bool_decide (prefix ≠ ".")
  then rstrip_char "/" prefix +:+ "/"
  else "".

Definition _load_all_files (root source_dir output_dir : Path) : M (option (gset string)) :=
  let manifest_path := child output_dir "manifest.json" in
  fs <- get_fs ;;
  if negb (is_file fs manifest_path) then ret None
  else
    parsed <- try_except
      (text <- read_text manifest_path ;;
       match json_loads text with
       | Some payload => ret (Some payload)
       | None => raise ValueError
       end)
      (λ _, do logger EXCEPTION "Failed to read manifest: %s" ;; ret None) ;;
    match parsed with
    | None => ret None
    | Some payload =>
        entries <-
          match payload with
          | JObj kvs => ret (default (JObj []) (dict_get kvs "files"))
          | _ => raise AttributeError
          end ;;
        match entries with
        | JObj entries =>
            match relative_to source_dir root with
            | None => ret None
            | Some relative_source =>
                let prefix := source_prefix relative_source in
                if bool_decide (prefix = "")
                then ret (Some (list_to_set entries.*1))
                else
                  ret (Some (list_to_set
                    (drop_chars (String.length prefix)
                       <$> filter (λ key, startswith key prefix) entries.*1)))
            end
        | _ => ret None
        end
    end.

(** One turn of the loop over [changed_paths] in [_load_changed_files]. *)
Definition changed_step (fs : FS) (source_dir : Path) (prefix : string)
    (summary : Summary) (changed_files : gmap string string)
    (path_str : string) : gmap string string :=
  if bool_decide (prefix ≠ "") && negb (startswith path_str prefix)
  then changed_files
  else
    let relative_path :=
      if bool_decide (prefix ≠ "")
      then drop_chars (String.length prefix) path_str else path_str in
    if bool_decide (relative_path = "") then changed_files
    else if bool_decide (relative_path ∈ deleted summary)
    then <[relative_path := "deleted"]> changed_files
    else
      let file_path := joinpath source_dir relative_path in
      if negb (is_file fs file_path) then changed_files
      else if bool_decide (relative_path ∈ added summary)
      then <[relative_path := "added"]> changed_files
      else if bool_decide (relative_path ∈ modified summary)
      then <[relative_path := "updated"]> changed_files
      else <[relative_path := "updated"]> changed_files.

Definition _load_changed_files (fs : FS) (root source_dir output_dir : Path)
    : option (gmap string string) :=
  let current_manifest := child output_dir "manifest.json" in
  if negb (is_file fs current_manifest) then None
  else
    match find_previous_manifest root output_dir fs with
    | None => None
    | Some previous_manifest =>
        match read_manifest_entries current_manifest fs,
              read_manifest_entries previous_manifest fs with
        | Some current_entries, Some previous_entries =>
            let summary := summarize_changes previous_entries current_entries in
            let changed_paths :=
              added summary ++ modified summary ++ deleted summary in
            if bool_decide (changed_paths = []) then Some ∅
            else
              match relative_to source_dir root with
              | None => None
              | Some relative_source =>
                  let prefix := source_prefix relative_source in
                  Some (foldl (changed_step fs source_dir prefix summary) ∅
                          changed_paths)
              end
        | _, _ => None
        end
    end.

(** [overview_model or "gpt-4.1"] *)
Definition model_or_default (overview_model : option string) : string :=
  match overview_model with
  | Some m => if bool_decide (m = "") then "gpt-4.1" else m
  | None => "gpt-4.1"
  end.

(** [shutil.copy2(src, dest)]: into [dest] when it is a directory. *)
Definition copy2 (src dest : Path) : M unit :=
  content <- read_text src ;;
  fs <- get_fs ;;
  if is_dir fs dest then write_text (child dest (name src)) content
  else write_text dest content.

(** One turn of the loop over [("json", "d2")]. *)
Definition reuse_suffix (node_id : string) (previous_run_dir output_dir : Path)
    (copied : bool) (suffix : string) : M bool :=
  let src := joinpath previous_run_dir (node_id +:+ "." +:+ suffix) in
  fs <- get_fs ;;
  if negb (is_file fs src) then ret copied
  else
    let dest := child output_dir (name src) in
    try_except (do copy2 src dest ;; ret true) (λ _, ret copied).

Definition _reuse_previous_node_diagram (node_id : string)
    (previous_run_dir output_dir : Path) : M bool :=
  copied <- reuse_suffix node_id previous_run_dir output_dir false "json" ;;
  copied <- reuse_suffix node_id previous_run_dir output_dir copied "d2" ;;
  do (if copied then logger INFO "Reused node diagram: %s" else ret tt) ;;
  ret copied.

(** [node.get("id")] when it is truthy. *)
Definition truthy_id (node : SchemaNode) : option string :=
  match node_id node with
  | Some i => if bool_decide (i = "") then None else Some i
  | None => None
  end.

(** The set comprehension [unchanged_ids]. *)
Definition unchanged_ids_of (nodes : list SchemaNode) : gset string :=
  list_to_set
    (omap (λ node,
             if bool_decide (node_status node = Some "unchanged")
             then truthy_id node else None) nodes).

(** The loop over [nodes] in [_prepare_node_diagram_inputs]. *)
Fixpoint include_loop (unchanged_ids : gset string)
    (previous_run_dir output_dir : Path) (nodes : list SchemaNode)
    (include_nodes : gset string) : M (gset string) :=
  match nodes with
  | [] => ret include_nodes
  | node :: rest =>
      match truthy_id node with
      | None => include_loop unchanged_ids previous_run_dir output_dir rest include_nodes
      | Some i =>
          if bool_decide (i ∉ unchanged_ids)
          then include_loop unchanged_ids previous_run_dir output_dir rest
                 ({[i]} ∪ include_nodes)
          else
            reused <- _reuse_previous_node_diagram i previous_run_dir output_dir ;;
            include_loop unchanged_ids previous_run_dir output_dir rest
              (if reused then include_nodes else {[i]} ∪ include_nodes)
      end
  end.

Definition _prepare_node_diagram_inputs (schema_path output_dir : Path)
    (previous_run_dir : option Path) : M (option (gset string)) :=
  match previous_run_dir with
  | None => ret None
  | Some previous_run_dir =>
      payload <- try_except
        (text <- read_text schema_path ;; ret (schema_nodes text))
        (λ _, ret None) ;;
      match payload with
      | None => ret None
      | Some nodes =>
          let unchanged_ids := unchanged_ids_of nodes in
          if bool_decide (unchanged_ids = ∅) then ret None
          else
            include_nodes <-
              include_loop unchanged_ids previous_run_dir output_dir nodes ∅ ;;
            ret (Some include_nodes)
      end
  end.

(** The body [run] of the background thread. *)
Definition node_diagrams_run (job : NodeJob) : M unit :=
  do try_except
       (include_nodes <-
          _prepare_node_diagram_inputs (job_schema job) (job_output job)
            (job_previous job) ;;
        if bool_decide (include_nodes = Some ∅)
        then logger INFO "No node diagrams need regeneration."
        else generate_node_schema_and_diagram (job_schema job) (job_source job)
               (job_output job) include_nodes)
       (λ _, logger EXCEPTION "Node diagram generation failed: %s") ;;
  logger INFO "Per-node diagram generation complete.".

(** The thread is started and not waited for: the job is recorded. *)
Definition _start_node_diagrams (schema_path source_dir output_dir : Path)
    (previous_run_dir : option Path) : M unit :=
  do logger INFO "Preparing per-node diagrams in background." ;;
  spawn {| job_schema := schema_path; job_source := source_dir;
           job_output := output_dir; job_previous := previous_run_dir |}.

Definition _generate_overview_diagram (folder output_dir : Path)
    (overview_model : option string) : M (option Path) :=
  let src_root := child folder "src" in
  fs <- get_fs ;;
  let source_dir := if is_dir fs src_root then src_root else folder in
  let combined_path := child output_dir "combined_files.txt" in
  let schema_path := child output_dir "overview.json" in
  let overview_path := child output_dir "overview.d2" in
  allowed_files <- _load_all_files folder source_dir output_dir ;;
  let allowed_files :=
    match allowed_files with
    | Some paths => Some (set_to_map (λ path, (path, "added")) paths)
    | None => None
    end in
  combined <- combine_src_files source_dir combined_path allowed_files ;;
  match generate_overview_schema combined (model_or_default overview_model) with
  | Raise exc => do logger EXCEPTION "OpenAI request failed: %s" ;; ret None
  | Ok overview_schema =>
      do write_text schema_path overview_schema ;;
      do get_overview_d2_diagram schema_path output_dir ;;
      do _start_node_diagrams schema_path source_dir output_dir None ;;
      fs <- get_fs ;;
      if is_file fs overview_path then ret (Some overview_path) else ret None
  end.

Definition _update_overview_diagram (folder output_dir : Path)
    (overview_model : option string) : M (option Path) :=
  let src_root := child folder "src" in
  fs <- get_fs ;;
  let source_dir := if is_dir fs src_root then src_root else folder in
  let combined_path := child output_dir "combined_files.txt" in
  let schema_path := child output_dir "overview.json" in
  let overview_path := child output_dir "overview.d2" in
  let allowed_files := _load_changed_files fs folder source_dir output_dir in
  if match allowed_files with
     | None => true
     | Some a => bool_decide (a = ∅)
     end
  then
    do logger INFO "No source changes detected; skipping overview update." ;;
    ret None
  else
    combined <- combine_src_files source_dir combined_path allowed_files ;;
    fs <- get_fs ;;
    let previous_manifest := find_previous_manifest folder output_dir fs in
    let previous_run_dir := parent <$> previous_manifest in
    previous_schema <-
      match previous_manifest with
      | Some pm =>
          try_except (read_text (child (parent pm) "overview.json")) (λ _, ret "")
      | None => ret ""
      end ;;
    match update_overview_schema combined (model_or_default overview_model)
            previous_schema with
    | Raise exc => do logger EXCEPTION "OpenAI request failed: %s" ;; ret None
    | Ok overview_schema =>
        do write_text schema_path overview_schema ;;
        do get_overview_d2_diagram schema_path output_dir ;;
        do _start_node_diagrams schema_path source_dir output_dir previous_run_dir ;;
        fs <- get_fs ;;
        if is_file fs overview_path then ret (Some overview_path) else ret None
    end.

Definition _is_valid_d2_bin (path : string) : bool :=
  if negb (is_executable_file path) then false
  else
    match run_d2_version path with
    | Ok returncode => bool_decide (returncode = 0%Z)
    | Raise _ => false
    end.

Definition _find_d2_bin : option string :=
  let candidates :=
    [environ_UNSLOP_D2_BIN; Some "/opt/homebrew/bin/d2"; Some "/usr/local/bin/d2";
     Some "/usr/bin/d2"; shutil_which_d2] in
  list_find (λ cand, cand ≠ "" ∧ _is_valid_d2_bin cand) (omap id candidates)
  ≫= λ r, Some r.2.


End diagram.

(** ** Vocabulary of the statements *)

(** A clock reading [strftime] renders with a four-digit year. *)
Definition valid_clock (t : datetime) : Prop :=
  (1000 ≤ year t ≤ 9999 ∧ month t < 100 ∧ day t < 100
   ∧ hour t < 100 ∧ minute t < 100 ∧ second t < 100)%N.


Fixpoint digits_only (s : string) : bool :=
  match s with
  | "" => true
  | String c s' => is_digit c && digits_only s'
  end.

(** What the loop of [_load_changed_files] makes of one changed path:
    the path below [prefix], unless it lies elsewhere or nothing is left. *)
Definition rebase (prefix path_str : string) : option string :=
  if bool_decide (prefix ≠ "") && negb (startswith path_str prefix) then None
  else
    let relative_path :=
      if bool_decide (prefix ≠ "")
      then drop_chars (String.length prefix) path_str else path_str in
    if bool_decide (relative_path = "") then None else Some relative_path.

(** The status the loop gives a rebased path, if it records the path. *)
Definition status_of (fs : FS) (source_dir : Path) (summary : Summary)
    (relative_path : string) : option string :=
  if bool_decide (relative_path ∈ deleted summary) then Some "deleted"
  else if negb (is_file fs (joinpath source_dir relative_path)) then None
  else if bool_decide (relative_path ∈ added summary) then Some "added"
  else Some "updated".


(** The changed paths [_load_changed_files] walks over, when both
    manifests can be read. *)
Definition changed_paths_of `{Collaborators} (fs : FS) (root output_dir : Path)
    : option (Summary * list string) :=
  if negb (is_file fs (child output_dir "manifest.json")) then None
  else
    previous_manifest ← find_previous_manifest root output_dir fs;
    current_entries ← read_manifest_entries (child output_dir "manifest.json") fs;
    previous_entries ← read_manifest_entries previous_manifest fs;
    let summary := summarize_changes previous_entries current_entries in
    Some (summary, added summary ++ modified summary ++ deleted summary).


(** Whether the artifact of node [i] with the given suffix is a file of
    the previous run and copying it into [output_dir] succeeds in [s]. *)
Definition artifact_copied (previous_run_dir output_dir : Path) (i suffix : string)
    (s : State) : bool :=
  let src := joinpath previous_run_dir (i +:+ "." +:+ suffix) in
  is_file (st_fs s) src
  && match fst (copy2 src (child output_dir (name src)) s) with
     | Ok _ => true
     | Raise _ => false
     end.

(** The name [create_run_dir] gives the run directory. *)
Definition run_dir_name (now : datetime) (rnd : N) : string :=
  strftime now +:+ "-" +:+ fmt_0d 4 rnd.

(** Modelled from the spec: [ManifestStore.persist] is not among the
    sources. Section 4.2: persisting writes a file inside the given run
    directory; [diagram.py] reads it back as [manifest.json]. *)
Definition persist (manifest_text : string) (run_dir : Path) : M Path :=
  let path := child run_dir "manifest.json" in
  do write_text path manifest_text ;;
  ret path.

(** Modelled from the spec: the first run of the command, which is not
    among the sources: open a run directory, then persist the manifest. *)
Definition first_run (now : datetime) (rnd : N) (root : Path)
    (manifest_text : string) : M Path :=
  run_dir <- create_run_dir now rnd root ;;
  persist manifest_text run_dir.

(** ** Concrete inputs *)

Definition clock_2025 : datetime :=
  {| year := 2025; month := 1; day := 2; hour := 3; minute := 4; second := 5 |}.

Definition clock_2026 : datetime :=
  {| year := 2026; month := 11; day := 3; hour := 0; minute := 0; second := 0 |}.

Definition legacy_tree : FS :=
  <[["proj"; "file.txt"] := File "content"]>
    (<[["proj"; ".unslop"] := File "legacy marker"]>
       (<[["proj"] := Dir]> (<[[] := Dir]> ∅))).

Definition legacy_state : State :=
  {| st_fs := legacy_tree; st_log := []; st_threads := [] |}.

Definition entry (h : string) : ManifestEntry :=
  {| content_hash := h; size := 1; mtime := 0 |}.

(** Collaborators for worked examples: the previous manifest is at
    [previous_manifest], manifests read as [entries] says, both schema
    services answer [schema_reply], and no [d2] binary is installed. *)
Definition example_collaborators (previous_manifest : option Path)
    (entries : Path → option (gmap string ManifestEntry))
    (schema_reply : result string)
    (nodes : option (list SchemaNode)) : Collaborators :=
  {| find_previous_manifest := λ _ _ _, previous_manifest;
     read_manifest_entries := λ p _, entries p;
     summarize_changes := spec_summarize_changes;
     generate_overview_schema := λ _ _, schema_reply;
     update_overview_schema := λ _ _ _, schema_reply;
     get_overview_d2_diagram := λ _ _, ret tt;
     generate_node_schema_and_diagram := λ _ _ _ _, ret tt;
     json_loads := λ _, None;
     schema_nodes := λ _, nodes;
     environ_UNSLOP_D2_BIN := None;
     shutil_which_d2 := None;
     is_executable_file := λ _, false;
     run_d2_version := λ _, Raise FileNotFoundError;
     run_d2 := λ _ _ _, Raise FileNotFoundError |}.

Definition run1 : Path := ["proj"; ".unslop"; "20250101T000000Z-0001"].
Definition run2 : Path := ["proj"; ".unslop"; "20250102T000000Z-0002"].

(** A project with a [src] folder, after two runs. Between them
    [src/a.py] was deleted and [src/keep.py] edited. *)
Definition src_tree : FS :=
  list_to_map
    [([], Dir); (["proj"], Dir); (["proj"; "src"], Dir);
     (["proj"; "src"; "keep.py"], File "print(1)");
     (["proj"; ".unslop"], Dir); (run1, Dir); (run2, Dir);
     (child run1 "manifest.json", File "{}");
     (child run2 "manifest.json", File "{}")].

Definition src_entries (p : Path) : option (gmap string ManifestEntry) :=
  if bool_decide (p = child run1 "manifest.json")
  then Some (list_to_map [("src/a.py", entry "aa"); ("src/keep.py", entry "k1")])
  else if bool_decide (p = child run2 "manifest.json")
  then Some (list_to_map [("src/keep.py", entry "k2")])
  else None.

Definition src_collaborators : Collaborators :=
  example_collaborators (Some (child run1 "manifest.json")) src_entries
    (Raise (ServiceError "unavailable")) None.

(** The same history in a project without a [src] folder. *)
Definition flat_tree : FS :=
  list_to_map
    [([], Dir); (["proj"], Dir);
     (["proj"; "keep.py"], File "print(1)");
     (["proj"; ".unslop"], Dir); (run1, Dir); (run2, Dir);
     (child run1 "manifest.json", File "{}");
     (child run2 "manifest.json", File "{}")].

Definition flat_entries (p : Path) : option (gmap string ManifestEntry) :=
  if bool_decide (p = child run1 "manifest.json")
  then Some (list_to_map [("a.py", entry "aa"); ("keep.py", entry "k1")])
  else if bool_decide (p = child run2 "manifest.json")
  then Some (list_to_map [("keep.py", entry "k2")])
  else None.

Definition flat_collaborators : Collaborators :=
  example_collaborators (Some (child run1 "manifest.json")) flat_entries
    (Raise (ServiceError "unavailable")) None.

(** Two runs over an unchanged tree. *)
Definition same_entries (p : Path) : option (gmap string ManifestEntry) :=
  Some (list_to_map [("src/keep.py", entry "k1")]).

Definition same_collaborators : Collaborators :=
  example_collaborators (Some (child run1 "manifest.json")) same_entries
    (Raise (ServiceError "unavailable")) None.

(** A first run: no earlier manifest. *)
Definition fresh_collaborators : Collaborators :=
  example_collaborators None src_entries (Raise (ServiceError "unavailable")) None.

Definition state_of (fs : FS) : State :=
  {| st_fs := fs; st_log := []; st_threads := [] |}.

(** A project with a [src] folder where, between two runs, [src/old.py]
    was deleted, [src/main.py] edited and [src/new.py] added. *)
Definition churn_tree : FS :=
  list_to_map
    [([], Dir); (["proj"], Dir); (["proj"; "src"], Dir);
     (["proj"; "src"; "main.py"], File "main()");
     (["proj"; "src"; "new.py"], File "new()");
     (["proj"; ".unslop"], Dir); (run1, Dir); (run2, Dir);
     (child run1 "manifest.json", File "{}");
     (child run2 "manifest.json", File "{}")].

Definition churn_entries (p : Path) : option (gmap string ManifestEntry) :=
  if bool_decide (p = child run1 "manifest.json")
  then Some (list_to_map [("src/old.py", entry "o1"); ("src/main.py", entry "m1")])
  else if bool_decide (p = child run2 "manifest.json")
  then Some (list_to_map [("src/main.py", entry "m2"); ("src/new.py", entry "n1")])
  else None.

Definition churn_collaborators : Collaborators :=
  example_collaborators (Some (child run1 "manifest.json")) churn_entries
    (Raise (ServiceError "unavailable")) None.

(** A previous run holding the artifacts of node [a] and the [d2] file
    of node [b]; the schema marks [a], [b] and [c] unchanged and [d]
    changed. *)
Definition reuse_tree : FS :=
  list_to_map
    [([], Dir); (["proj"], Dir); (["proj"; ".unslop"], Dir);
     (run1, Dir); (run2, Dir);
     (child run1 "a.json", File "{a}"); (child run1 "a.d2", File "a -> a");
     (child run1 "b.d2", File "b -> b");
     (child run2 "overview.json", File "{nodes}")].

Definition reuse_nodes : list SchemaNode :=
  [{| node_id := Some "a"; node_status := Some "unchanged" |};
   {| node_id := Some "b"; node_status := Some "unchanged" |};
   {| node_id := Some "c"; node_status := Some "unchanged" |};
   {| node_id := Some "d"; node_status := Some "changed" |};
   {| node_id := None; node_status := Some "changed" |}].

Definition reuse_collaborators : Collaborators :=
  example_collaborators (Some (child run1 "manifest.json")) src_entries
    (Raise (ServiceError "unavailable")) (Some reuse_nodes).

(** ** More of diagram.py *)

(** [p.mkdir(parents=True, exist_ok=True)]: pathlib tries the directory
    itself and, when its parent is missing, makes the parent first. The
    fuel is the depth of [p]; it runs out at the top, where a path is
    its own parent. *)
Fixpoint mkdir_parents_aux (fuel : nat) (p : Path) : M unit :=
  fs <- get_fs ;;
  match fs !! p with
  | Some Dir => ret tt
  | Some (File _) => raise FileExistsError
  | None =>
      match fs !! parent p with
      | Some Dir => put_fs (<[p := Dir]> fs)
      | Some (File _) => raise NotADirectoryError
      | None =>
          match fuel with
          | O => raise FileNotFoundError
          | S fuel' => do mkdir_parents_aux fuel' (parent p) ;; mkdir true p
          end
      end
  end.

Definition mkdir_parents (p : Path) : M unit := mkdir_parents_aux (length p) p.

(** [generate_diagram]; [folder] is taken as already resolved, and
    [now] and [rnd] are what [create_run_dir] would read. *)
Definition generate_diagram `{Collaborators} (now : datetime) (rnd : N)
    (folder : Path) (output_dir : option Path) (is_update : bool)
    (overview_model : option string) : M (option Path) :=
  do logger INFO "Preparing overview diagram for %s ..." ;;
  output_dir <-
    match output_dir with
    | None => create_run_dir now rnd folder
    | Some d => ret d
    end ;;
  do mkdir_parents output_dir ;;
  diagram_path <-
    (if is_update
     then _update_overview_diagram folder output_dir overview_model
     else _generate_overview_diagram folder output_dir overview_model) ;;
  match diagram_path with
  | None => ret None
  | Some p => do logger INFO "Generated D2 diagram at %s" ;; ret (Some p)
  end.

(** [s.endswith(suffix)] *)
Definition endswith (s suffix : string) : bool :=
  (String.length suffix <=? String.length s)%nat
  && String.eqb (drop_chars (String.length s - String.length suffix) s) suffix.

(** [run_dir.glob("*.d2")]: the entries of the directory, of any kind,
    whose names end in [.d2]. *)
Definition glob_d2 (fs : FS) (run_dir : Path) : list Path :=
  filter (λ p, endswith (name p) ".d2") (iterdir fs run_dir).

(** The loop of [latest_diagram] over [reversed(list_run_dirs(folder))]. *)
Fixpoint latest_diagram_loop (fs : FS) (runs : list Path) : option Path :=
  match runs with
  | [] => None
  | run_dir :: rest =>
      let overview := child run_dir "overview.d2" in
      if is_file fs overview then Some overview
      else
        match last (merge_sort path_le (glob_d2 fs run_dir)) with
        | Some diagram => Some diagram
        | None => latest_diagram_loop fs rest
        end
  end.

Definition latest_diagram (fs : FS) (folder : Path) : option Path :=
  latest_diagram_loop fs (reverse (list_run_dirs fs folder)).


(** [find_d2_bin], the public name of [_find_d2_bin]. *)
Definition find_d2_bin `{Collaborators} : option string := _find_d2_bin.

(** ** Vocabulary of further statements *)

(** The candidates [_find_d2_bin] tries, in order, without the unset
    ones. *)
Definition d2_candidates `{Collaborators} : list string :=
  omap id [environ_UNSLOP_D2_BIN; Some "/opt/homebrew/bin/d2";
           Some "/usr/local/bin/d2"; Some "/usr/bin/d2"; shutil_which_d2].


(** Whether a directory holds an entry whose name ends in [.d2]. *)
Definition has_d2 (fs : FS) (run_dir : Path) : Prop :=
  ∃ q, q ∈ iterdir fs run_dir ∧ endswith (name q) ".d2" = true.

(** The lines [combine_src_files] writes for one file. *)
Definition file_block (fs : FS) (src_path : Path)
    (allowed_files : option (gmap string string)) (file_path : Path) : list string :=
  combine_file fs src_path allowed_files [] file_path.

(** ** More concrete inputs *)

(** Collaborators whose [json.loads] answers [payload] and whose schema
    services answer [schema_reply]. *)
Definition json_collaborators (payload : option json)
    (schema_reply : result string) : Collaborators :=
  {| find_previous_manifest := λ _ _ _, None;
     read_manifest_entries := λ _ _, None;
     summarize_changes := spec_summarize_changes;
     generate_overview_schema := λ _ _, schema_reply;
     update_overview_schema := λ _ _ _, schema_reply;
     get_overview_d2_diagram := λ _ _, ret tt;
     generate_node_schema_and_diagram := λ _ _ _ _, ret tt;
     json_loads := λ _, payload;
     schema_nodes := λ _, None;
     environ_UNSLOP_D2_BIN := None;
     shutil_which_d2 := None;
     is_executable_file := λ _, false;
     run_d2_version := λ _, Raise FileNotFoundError;
     run_d2 := λ _ _ _, Raise FileNotFoundError |}.

(** Collaborators with a renderer installed at the path the environment
    names; rendering itself exits with an error. *)
Definition d2_collaborators : Collaborators :=
  {| find_previous_manifest := λ _ _ _, None;
     read_manifest_entries := λ _ _, None;
     summarize_changes := spec_summarize_changes;
     generate_overview_schema := λ _ _, Raise (ServiceError "unavailable");
     update_overview_schema := λ _ _ _, Raise (ServiceError "unavailable");
     get_overview_d2_diagram := λ _ _, ret tt;
     generate_node_schema_and_diagram := λ _ _ _ _, ret tt;
     json_loads := λ _, None;
     schema_nodes := λ _, None;
     environ_UNSLOP_D2_BIN := Some "/opt/d2/bin/d2";
     shutil_which_d2 := Some "/usr/bin/d2";
     is_executable_file := λ _, true;
     run_d2_version := λ _, Ok 0%Z;
     run_d2 := λ _ _ _, Ok (1%Z, "", "bad input") |}.

(** * Properties *)

(** ** Strings *)

Lemma digit_cases (d : N) :
  (d < 10)%N →
  d ∈ [0; 1; 2; 3; 4; 5; 6; 7; 8; 9]%N.
Proof.
  intros Hd. rewrite !elem_of_cons. lia.
Qed.

Lemma is_digit_digit_char d : (d < 10)%N → is_digit (digit_char d) = true.
Proof.
  intros Hd%digit_cases. rewrite !elem_of_cons in Hd.
  repeat (destruct Hd as [->|Hd]; [reflexivity|]). by apply elem_of_nil in Hd.
Qed.

Lemma app_cons x (a b : string) : String x a +:+ b = String x (a +:+ b).
Proof. reflexivity. Qed.

Lemma app_nil (b : string) : "" +:+ b = b.
Proof. reflexivity. Qed.

Lemma app_nil_r_string (a : string) : a +:+ "" = a.
Proof. induction a as [|c a IH]; [done|]. rewrite app_cons. by rewrite IH. Qed.

Lemma string_app_length (a b : string) :
  String.length (a +:+ b) = (String.length a + String.length b)%nat.
Proof.
  induction a as [|c a IH]; [done|]. rewrite app_cons. simpl. by rewrite IH.
Qed.

Lemma string_app_assoc (a b c : string) : (a +:+ b) +:+ c = a +:+ (b +:+ c).
Proof.
  induction a as [|x a IH]; [done|]. rewrite !app_cons. by rewrite IH.
Qed.

Lemma pad_dec_length w n : String.length (pad_dec w n) = w.
Proof.
  revert n. induction w as [|w IH]; intros n; simpl; [done|].
  rewrite string_app_length, IH. simpl. lia.
Qed.

Lemma digits_only_app a b :
  digits_only (a +:+ b) = digits_only a && digits_only b.
Proof.
  induction a as [|c a IH]; [done|]. rewrite app_cons. simpl.
  rewrite IH. by destruct (is_digit c).
Qed.

Lemma pad_dec_digits w n : digits_only (pad_dec w n) = true.
Proof.
  revert n. induction w as [|w IH]; intros n; simpl; [done|].
  rewrite digits_only_app, IH. simpl.
  rewrite is_digit_digit_char; [done|]. apply N.mod_upper_bound. lia.
Qed.

Lemma match_digits_app n s rest :
  String.length s = n → digits_only s = true →
  match_digits n (s +:+ rest) = Some rest.
Proof.
  revert n. induction s as [|c s IH]; intros n Hlen Hd; simpl in *.
  - by subst n.
  - subst n. apply andb_true_iff in Hd as [Hc Hs]. rewrite app_cons. simpl.
    rewrite Hc. by apply IH.
Qed.

Lemma fmt_0d_pad w n : (n < 10 ^ N.of_nat w)%N → fmt_0d w n = pad_dec w n.
Proof.
  intros Hn. unfold fmt_0d.
  destruct (N.ltb_spec n (10 ^ N.of_nat w)); [done | lia].
Qed.

Lemma dec_four_digits y : (1000 ≤ y ≤ 9999)%N → dec y = pad_dec 4 y.
Proof.
  intros Hy.
  assert (Hall : forallb (λ y, String.eqb (dec y) (pad_dec 4 y))
                   (map N.of_nat (seq (N.to_nat 1000) (N.to_nat 9000))) = true)
    by (vm_compute; reflexivity).
  rewrite forallb_forall in Hall.
  apply String.eqb_eq, Hall, in_map_iff. exists (N.to_nat y).
  split; [lia | apply in_seq; lia].
Qed.

(** The rendering of a valid clock reading, block by block. *)
Lemma strftime_valid t :
  valid_clock t →
  strftime t =
    pad_dec 4 (year t) +:+ pad_dec 2 (month t) +:+ pad_dec 2 (day t) +:+ "T"
    +:+ pad_dec 2 (hour t) +:+ pad_dec 2 (minute t) +:+ pad_dec 2 (second t) +:+ "Z".
Proof.
  intros (Hy & Hm & Hd & Hh & Hmi & Hs). unfold strftime.
  rewrite dec_four_digits by done.
  rewrite !fmt_0d_pad by (simpl; lia). done.
Qed.

(** ** The order on strings *)


Lemma compare_le_trans a b c :
  String.compare a b ≠ Gt → String.compare b c ≠ Gt → String.compare a c ≠ Gt.
Proof.
  revert b c. induction a as [|x a IH]; intros [|y b] [|z c]; simpl; try done.
  unfold Ascii.compare.
  destruct (N.compare_spec (N_of_ascii x) (N_of_ascii y)) as [Hxy|Hxy|Hxy];
    destruct (N.compare_spec (N_of_ascii y) (N_of_ascii z)) as [Hyz|Hyz|Hyz];
    destruct (N.compare_spec (N_of_ascii x) (N_of_ascii z)) as [Hxz|Hxz|Hxz];
    try done; try lia.
  apply IH.
Qed.

#[local] Instance str_le_trans : Transitive str_le.
Proof.
  intros a b c. unfold str_le, String.leb. intros Hab Hbc.
  pose proof (compare_le_trans a b c) as Ht.
  destruct (String.compare a b), (String.compare b c), (String.compare a c);
    try done; exfalso; by apply Ht.
Qed.

#[local] Instance str_le_total : Total str_le.
Proof. intros a b. apply String.leb_total. Qed.

#[local] Instance name_le_trans : Transitive name_le.
Proof. intros p q r. unfold name_le. apply str_le_trans. Qed.

#[local] Instance name_le_total : Total name_le.
Proof. intros p q. unfold name_le. apply str_le_total. Qed.





Lemma match_lit_cons c s : match_lit c (String c s) = Some s.
Proof. simpl. by rewrite Ascii.eqb_refl. Qed.

Lemma run_dir_re_shape (d t r : string) :
  String.length d = 8%nat → digits_only d = true →
  String.length t = 6%nat → digits_only t = true →
  String.length r = 4%nat → digits_only r = true →
  _RUN_DIR_RE (d +:+ "T" +:+ t +:+ "Z-" +:+ r) = true.
Proof.
  intros Hd1 Hd2 Ht1 Ht2 Hr1 Hr2. unfold _RUN_DIR_RE.
  rewrite match_digits_app by done. rewrite !app_cons, !app_nil.
  cbn [mbind option_bind]. rewrite match_lit_cons. cbn [mbind option_bind].
  rewrite match_digits_app by done.
  cbn [mbind option_bind]. rewrite match_lit_cons.
  cbn [mbind option_bind]. rewrite match_lit_cons.
  cbn [mbind option_bind].
  rewrite <- (app_nil_r_string r). by rewrite match_digits_app.
Qed.

Lemma run_dir_name_matches t r :
  valid_clock t → (r < 10000)%N →
  _RUN_DIR_RE (run_dir_name t r) = true
  ∧ String.length (run_dir_name t r) = 21%nat.
Proof.
  intros Hv Hr. unfold run_dir_name. rewrite strftime_valid by done.
  destruct Hv as (Hy & Hm & Hd & Hh & Hmi & Hs).
  rewrite fmt_0d_pad by (simpl; lia). split.
  - match goal with |- _RUN_DIR_RE ?s = true =>
      replace s with
        ((pad_dec 4 (year t) +:+ pad_dec 2 (month t) +:+ pad_dec 2 (day t))
         +:+ "T"
         +:+ (pad_dec 2 (hour t) +:+ pad_dec 2 (minute t) +:+ pad_dec 2 (second t))
         +:+ "Z-" +:+ pad_dec 4 r)
        by (by rewrite !string_app_assoc)
    end.
    apply run_dir_re_shape.
    + by rewrite !string_app_length, !pad_dec_length.
    + by rewrite !digits_only_app, !pad_dec_digits.
    + by rewrite !string_app_length, !pad_dec_length.
    + by rewrite !digits_only_app, !pad_dec_digits.
    + by rewrite pad_dec_length.
    + by rewrite pad_dec_digits.
  - rewrite !string_app_length, !pad_dec_length. done.
Qed.

(** ** Paths and simple runs *)

Lemma parent_child d n : parent (child d n) = d.
Proof. unfold parent, child. apply removelast_last. Qed.

Lemma name_child d n : name (child d n) = n.
Proof. unfold name, child. by rewrite last_snoc. Qed.

Lemma child_ne_parent d n : child d n ≠ d.
Proof.
  unfold child. intros Heq. apply (f_equal length) in Heq.
  rewrite length_app in Heq. simpl in Heq. lia.
Qed.


Lemma set_fs_id s : set_fs s (st_fs s) = s.
Proof. by destruct s. Qed.

Lemma elem_of_iterdir fs d p :
  p ∈ iterdir fs d ↔ p ≠ [] ∧ parent p = d ∧ is_Some (fs !! p).
Proof.
  unfold iterdir. rewrite list_elem_of_filter, list_elem_of_fmap. split.
  - intros [[Hne Hpar] [[q x] [-> Hin]]]. simpl in *.
    apply elem_of_map_to_list in Hin. eauto.
  - intros (Hne & Hpar & [x Hx]). split; [done|]. exists (p, x).
    split; [done|]. by apply elem_of_map_to_list.
Qed.

(** [ensure_unslop_dir] below a directory: whatever was at [.unslop], a
    directory is there afterwards and nothing else changes. *)
Lemma ensure_unslop_dir_run root s :
  st_fs s !! root = Some Dir →
  ensure_unslop_dir root s =
    (Ok (child root ".unslop"), set_fs s (<[child root ".unslop" := Dir]> (st_fs s))).
Proof.
  intros Hroot. unfold ensure_unslop_dir, bind, get_fs, exists_, is_dir.
  destruct (st_fs s !! child root ".unslop") as [[c|]|] eqn:Hu; simpl.
  - unfold unlink, bind, get_fs. rewrite Hu. simpl.
    unfold mkdir, bind, get_fs. simpl. rewrite lookup_delete_eq.
    rewrite parent_child, lookup_delete_ne by apply child_ne_parent.
    rewrite Hroot. simpl. unfold ret, set_fs. simpl.
    by rewrite insert_delete_eq.
  - unfold mkdir, bind, get_fs. rewrite Hu. simpl. unfold ret.
    rewrite insert_id by done. by rewrite set_fs_id.
  - unfold mkdir, bind, get_fs. rewrite Hu, parent_child, Hroot. done.
Qed.

Lemma create_run_dir_run now rnd root s :
  let unslop_dir := child root ".unslop" in
  let run_dir := child unslop_dir (run_dir_name now rnd) in
  st_fs s !! root = Some Dir →
  st_fs s !! run_dir = None →
  create_run_dir now rnd root s =
    (Ok run_dir, set_fs s (<[run_dir := Dir]> (<[unslop_dir := Dir]> (st_fs s)))).
Proof.
  intros unslop_dir run_dir Hroot Hfresh. unfold create_run_dir, bind.
  rewrite ensure_unslop_dir_run by done.
  fold unslop_dir. fold (run_dir_name now rnd). fold run_dir.
  unfold mkdir, bind, get_fs. simpl.
  rewrite lookup_insert_ne by (symmetry; apply child_ne_parent).
  rewrite Hfresh. unfold run_dir at 1. rewrite parent_child, lookup_insert_eq.
  done.
Qed.


(** ** The run ledger *)

Lemma elem_of_list_run_dirs fs root p :
  p ∈ list_run_dirs fs root ↔
    is_dir fs (child root ".unslop") = true
    ∧ parent p = child root ".unslop" ∧ p ≠ []
    ∧ is_dir fs p = true ∧ _RUN_DIR_RE (name p) = true.
Proof.
  unfold list_run_dirs.
  destruct (is_dir fs (child root ".unslop")) eqn:Hu; simpl.
  - rewrite merge_sort_Permutation, list_elem_of_filter, elem_of_iterdir.
    rewrite andb_True, !Is_true_true. split.
    + intros [[Hd Hre] (Hne & Hpar & _)]. done.
    + intros (_ & Hpar & Hne & Hd & Hre). repeat split; try done.
      unfold is_dir in Hd. destruct (fs !! p); [eauto | done].
  - split; [by intros ?%elem_of_nil | by intros [? _]].
Qed.

Lemma list_run_dirs_sorted fs root :
  StronglySorted name_le (list_run_dirs fs root).
Proof.
  unfold list_run_dirs. destruct (is_dir _ _); simpl.
  - apply (StronglySorted_merge_sort name_le).
  - constructor.
Qed.


Lemma strongly_sorted_last {A} (R : relation A) l x :
  StronglySorted R l → last l = Some x → ∀ y, y ∈ l → y = x ∨ R y x.
Proof.
  intros Hs Hlast y Hy. apply last_Some in Hlast as [l' ->].
  apply elem_of_app in Hy as [Hy|Hy%list_elem_of_singleton]; [|by left].
  right. induction l' as [|z l' IH]; [by apply elem_of_nil in Hy|].
  simpl in Hs. apply StronglySorted_inv in Hs as [Hs Hall].
  apply elem_of_cons in Hy as [->|Hy]; [|by apply IH].
  rewrite Forall_forall in Hall. apply Hall, elem_of_app. right.
  by apply list_elem_of_singleton.
Qed.

Lemma wf_fs_below_file fs d n c :
  wf_fs fs → fs !! d = Some (File c) → fs !! child d n = None.
Proof.
  intros Hwf Hd. destruct (fs !! child d n) as [x|] eqn:Hx; [|done].
  apply Hwf in Hx. rewrite parent_child, Hd in Hx.
  assert (child d n ≠ []) as Hne by (unfold child; by destruct d).
  by specialize (Hx Hne).
Qed.



(** C9: when a regular file sits at [.unslop], the first run removes it
    and makes a directory in its place, and the manifest computed in
    that run is written below it and stays there: nothing else in the
    tree changes, and a later [ensure_unslop_dir] leaves the tree as it
    is. *)
Theorem C9_marker_file_replaced (now : datetime) (rnd : N) (root : Path)
    (manifest_text legacy : string) (s : State) :
  let unslop_dir := child root ".unslop" in
  let run_dir := child unslop_dir (run_dir_name now rnd) in
  let manifest_path := child run_dir "manifest.json" in
  wf_fs (st_fs s) →
  st_fs s !! root = Some Dir →
  st_fs s !! unslop_dir = Some (File legacy) →
  (∃ s1, ensure_unslop_dir root s = (Ok unslop_dir, s1)
         ∧ st_fs s1 = <[unslop_dir := Dir]> (st_fs s))
  ∧ ∃ s', first_run now rnd root manifest_text s = (Ok manifest_path, s')
      ∧ st_fs s' !! unslop_dir = Some Dir
      ∧ st_fs s' !! run_dir = Some Dir
      ∧ st_fs s' !! manifest_path = Some (File manifest_text)
      ∧ (∀ p, p ≠ unslop_dir → p ≠ run_dir → p ≠ manifest_path →
           st_fs s' !! p = st_fs s !! p)
      ∧ ensure_unslop_dir root s' = (Ok unslop_dir, s').
Proof.
  intros unslop_dir run_dir manifest_path Hwf Hroot Hmarker.
  split.
  { eexists. split; [by apply ensure_unslop_dir_run|]. done. }
  assert (Hfresh : st_fs s !! run_dir = None)
    by (by eapply wf_fs_below_file).
  assert (Hfresh' : st_fs s !! manifest_path = None).
  { destruct (st_fs s !! manifest_path) as [x|] eqn:Hx; [|done].
    apply Hwf in Hx. unfold manifest_path in Hx.
    rewrite parent_child, Hfresh in Hx.
    assert (child run_dir "manifest.json" ≠ []) as Hne
      by (unfold child; by destruct run_dir).
    by specialize (Hx Hne). }
  assert (Hne1 : run_dir ≠ unslop_dir) by apply child_ne_parent.
  assert (Hne2 : manifest_path ≠ run_dir) by apply child_ne_parent.
  assert (Hne3 : manifest_path ≠ unslop_dir).
  { unfold manifest_path, run_dir, child. intros Heq.
    apply (f_equal length) in Heq. rewrite !length_app in Heq. simpl in Heq. lia. }
  eexists. split.
  { unfold first_run, bind. rewrite create_run_dir_run by done.
    fold unslop_dir run_dir. unfold persist, bind, write_text, bind, get_fs.
    simpl. fold manifest_path.
    rewrite !lookup_insert_ne by done. rewrite Hfresh'.
    unfold manifest_path at 1. rewrite parent_child, lookup_insert_eq.
    simpl. reflexivity. }
  simpl. split_and!.
  - rewrite !lookup_insert_ne by done. apply lookup_insert_eq.
  - rewrite lookup_insert_ne by done. apply lookup_insert_eq.
  - apply lookup_insert_eq.
  - intros p H1 H2 H3. by rewrite !lookup_insert_ne.
  - rewrite ensure_unslop_dir_run.
    + simpl. f_equal. unfold set_fs. simpl. f_equal.
      apply insert_id. rewrite !lookup_insert_ne by done.
      apply lookup_insert_eq.
    + simpl. rewrite !lookup_insert_ne; [done|..]; intros Heq; congruence.
Qed.

Lemma C9_marker_file_replaced_witness :
  wf_fs legacy_tree
  ∧ legacy_tree !! ["proj"] = Some Dir
  ∧ legacy_tree !! ["proj"; ".unslop"] = Some (File "legacy marker")
  ∧ ∃ s', first_run clock_2025 7 ["proj"] "{}" legacy_state =
            (Ok ["proj"; ".unslop"; "20250102T030405Z-0007"; "manifest.json"], s')
          ∧ st_fs s' !! ["proj"; ".unslop"] = Some Dir.
Proof.
  assert (Hwf : wf_fs legacy_tree)
    by (apply (bool_decide_unpack (wf_fs legacy_tree)); vm_compute; exact I).
  assert (Hroot : legacy_tree !! ["proj"] = Some Dir) by reflexivity.
  assert (Hm : legacy_tree !! ["proj"; ".unslop"] = Some (File "legacy marker"))
    by reflexivity.
  refine (conj Hwf (conj Hroot (conj Hm _))).
  destruct (C9_marker_file_replaced clock_2025 7 ["proj"] "{}" "legacy marker"
              legacy_state Hwf Hroot Hm) as (_ & s' & Hrun & Hu & _).
  exists s'. split; [exact Hrun | exact Hu].
Defined.

(** ** The change set *)

Lemma elem_of_modified previous current k :
  k ∈ cs_modified (diff previous current) ↔
    ∃ ep ec, previous !! k = Some ep ∧ current !! k = Some ec
             ∧ content_hash ep ≠ content_hash ec.
Proof.
  unfold diff. simpl. rewrite elem_of_filter, elem_of_intersection, !elem_of_dom.
  unfold hash_differs. split.
  - intros (Hne & [ep Hp] & [ec Hc]). exists ep, ec.
    rewrite Hp, Hc in Hne. simpl in Hne. split_and!; try done. congruence.
  - intros (ep & ec & Hp & Hc & Hne). rewrite Hp, Hc. simpl.
    split_and!; eauto. congruence.
Qed.

Lemma diff_hash_only previous current previous' current' :
  (content_hash <$> previous') = (content_hash <$> previous) →
  (content_hash <$> current') = (content_hash <$> current) →
  diff previous' current' = diff previous current.
Proof.
  intros Hp Hc.
  assert (Hdp : dom previous' = dom previous)
    by (by rewrite <- (dom_fmap_L content_hash previous'), Hp, dom_fmap_L).
  assert (Hdc : dom current' = dom current)
    by (by rewrite <- (dom_fmap_L content_hash current'), Hc, dom_fmap_L).
  unfold diff. rewrite Hdp, Hdc. f_equal.
  apply set_eq. intros k. rewrite !elem_of_filter. unfold hash_differs.
  by rewrite <- !lookup_fmap, Hp, Hc.
Qed.

(** C3: for manifests [previous] and [current] the change set has
    [added = keys(current) − keys(previous)] and
    [deleted = keys(previous) − keys(current)]; a key of both is
    [modified] exactly when the two content hashes differ, whatever the
    sizes and modification times; the three sets are pairwise disjoint
    and a key whose hash did not change is in none of them. *)
Theorem C3_diff_correct (previous current : gmap string ManifestEntry) :
  let cs := diff previous current in
  cs_added cs = dom current ∖ dom previous
  ∧ cs_deleted cs = dom previous ∖ dom current
  ∧ (∀ k ep ec, previous !! k = Some ep → current !! k = Some ec →
       (k ∈ cs_modified cs ↔ content_hash ep ≠ content_hash ec))
  ∧ cs_modified cs ⊆ dom previous ∩ dom current
  ∧ (∀ previous' current',
       (content_hash <$> previous') = (content_hash <$> previous) →
       (content_hash <$> current') = (content_hash <$> current) →
       diff previous' current' = cs)
  ∧ cs_added cs ## cs_modified cs
  ∧ cs_added cs ## cs_deleted cs
  ∧ cs_modified cs ## cs_deleted cs
  ∧ (∀ k ep ec, previous !! k = Some ep → current !! k = Some ec →
       content_hash ep = content_hash ec →
       (k ∉ cs_added cs) ∧ (k ∉ cs_modified cs) ∧ (k ∉ cs_deleted cs)).
Proof.
  intros cs. split_and!.
  - done.
  - done.
  - intros k ep ec Hp Hc. unfold cs. rewrite elem_of_modified. split.
    + intros (ep' & ec' & Hp' & Hc' & Hne). congruence.
    + intros Hne. eauto.
  - unfold cs, diff. simpl. intros k [_ Hk]%elem_of_filter. done.
  - intros previous' current'. apply diff_hash_only.
  - unfold cs, diff. simpl. intros k Ha [_ Hm]%elem_of_filter. set_solver.
  - unfold cs, diff. simpl. set_solver.
  - unfold cs, diff. simpl. intros k [_ Hm]%elem_of_filter Hd. set_solver.
  - intros k ep ec Hp Hc Heq. split_and!.
    + unfold cs, diff. simpl. rewrite elem_of_difference, !elem_of_dom.
      intros [_ Hn]. apply Hn. eauto.
    + unfold cs. rewrite elem_of_modified.
      intros (ep' & ec' & Hp' & Hc' & Hne). congruence.
    + unfold cs, diff. simpl. rewrite elem_of_difference, !elem_of_dom.
      intros [_ Hn]. apply Hn. eauto.
Qed.

Lemma diff_same (m : gmap string ManifestEntry) :
  diff m m = {| cs_added := ∅; cs_modified := ∅; cs_deleted := ∅ |}.
Proof.
  unfold diff. f_equal.
  - set_solver.
  - apply set_eq. intros k. rewrite elem_of_filter. unfold hash_differs.
    set_solver.
  - set_solver.
Qed.

Lemma spec_summarize_changes_same (m : gmap string ManifestEntry) :
  spec_summarize_changes m m = {| added := []; modified := []; deleted := [] |}.
Proof.
  unfold spec_summarize_changes. rewrite diff_same. simpl.
  by rewrite elements_empty.
Qed.

(** ** Selecting the changed files *)

Lemma startswith_app p r : startswith (p +:+ r) p = true.
Proof.
  induction p as [|c p IH]; [by destruct r|].
  rewrite app_cons. simpl. by rewrite Ascii.eqb_refl.
Qed.

Lemma drop_chars_app p r : drop_chars (String.length p) (p +:+ r) = r.
Proof. induction p as [|c p IH]; [done|]. rewrite app_cons. by simpl. Qed.

Lemma startswith_inv s p :
  startswith s p = true → s = p +:+ drop_chars (String.length p) s.
Proof.
  revert s. induction p as [|c p IH]; intros s Hs; [done|].
  destruct s as [|d s]; [done|]. simpl in Hs.
  destruct (Ascii.eqb_spec c d) as [->|]; [|done].
  rewrite app_cons. simpl. f_equal. by apply IH.
Qed.

(** A rebased path is what follows the prefix in the original path. *)
Lemma rebase_Some prefix p r :
  rebase prefix p = Some r ↔ p = prefix +:+ r ∧ r ≠ "".
Proof.
  unfold rebase. destruct (decide (prefix = "")) as [->|Hne].
  - rewrite bool_decide_eq_false_2 by (by intros ?). simpl.
    case_bool_decide; split; try done.
    + intros [-> ?]. done.
    + intros [= ->]. done.
    + intros [-> ?]. done.
  - rewrite bool_decide_eq_true_2 by done. simpl.
    destruct (startswith p prefix) eqn:Hs; simpl.
    + apply startswith_inv in Hs. case_bool_decide as Hr; split.
      * done.
      * intros [-> Hr']. by rewrite drop_chars_app in Hr.
      * intros [= <-]. done.
      * intros [-> Hr']. by rewrite drop_chars_app.
    + split; [done|]. intros [-> _]. by rewrite startswith_app in Hs.
Qed.

Lemma changed_step_rebase `{Collaborators} fs source_dir prefix summary
    (m : gmap string string) p :
  changed_step fs source_dir prefix summary m p =
    match rebase prefix p with
    | Some r =>
        match status_of fs source_dir summary r with
        | Some v => <[r := v]> m
        | None => m
        end
    | None => m
    end.
Proof.
  unfold changed_step, rebase, status_of.
  destruct (bool_decide (prefix ≠ "") && negb (startswith p prefix)); [done|].
  repeat case_bool_decide; try done; by destruct (is_file _ _).
Qed.

(** The mapping the loop builds: a key is the rebasing of a changed
    path, and its status depends on the key alone. *)
Lemma changed_fold_lookup `{Collaborators} fs source_dir prefix summary paths
    (acc : gmap string string) r :
  foldl (changed_step fs source_dir prefix summary) acc paths !! r =
    if bool_decide (Exists (λ p, rebase prefix p = Some r) paths)
    then match status_of fs source_dir summary r with
         | Some v => Some v
         | None => acc !! r
         end
    else acc !! r.
Proof.
  revert acc. induction paths as [|p paths IH]; intros acc; cbn [foldl].
  - rewrite bool_decide_eq_false_2; [done|]. by intros ?%Exists_nil.
  - rewrite IH, changed_step_rebase.
    destruct (rebase prefix p) as [r'|] eqn:Hp.
    + destruct (decide (r' = r)) as [->|Hne].
      * rewrite (bool_decide_eq_true_2 (Exists _ (p :: paths)))
          by (by apply Exists_cons_hd).
        destruct (status_of fs source_dir summary r) as [v|] eqn:Hst.
        -- by case_bool_decide; [|rewrite lookup_insert_eq].
        -- by case_bool_decide.
      * assert (Hacc : match status_of fs source_dir summary r' with
                       | Some v => <[r' := v]> acc
                       | None => acc
                       end !! r = acc !! r).
        { destruct (status_of _ _ _ r'); [by rewrite lookup_insert_ne|done]. }
        rewrite Hacc.
        apply (f_equal (λ b : bool, if b then _ else _)).
        apply bool_decide_ext. rewrite Exists_cons. split; [by right|].
        intros [?|?]; [congruence|done].
    + apply (f_equal (λ b : bool, if b then _ else _)).
      apply bool_decide_ext. rewrite Exists_cons. split; [by right|].
      intros [?|?]; [congruence|done].
Qed.

Lemma load_changed_files_eq `{Collaborators} fs root source_dir output_dir :
  _load_changed_files fs root source_dir output_dir =
    match changed_paths_of fs root output_dir with
    | None => None
    | Some (summary, changed_paths) =>
        if bool_decide (changed_paths = []) then Some ∅
        else
          match relative_to source_dir root with
          | None => None
          | Some relative_source =>
              Some (foldl (changed_step fs source_dir
                             (source_prefix relative_source) summary) ∅
                      changed_paths)
          end
    end.
Proof.
  unfold _load_changed_files, changed_paths_of.
  destruct (is_file fs (child output_dir "manifest.json")); simpl; [|done].
  destruct (find_previous_manifest root output_dir fs) as [pm|]; simpl; [|done].
  destruct (read_manifest_entries (child output_dir "manifest.json") fs);
    simpl; [|done].
  by destruct (read_manifest_entries pm fs).
Qed.

(** An update run that finds nothing to do, for whatever reason. *)
Lemma update_skips `{Collaborators} folder output_dir overview_model s :
  let source_dir :=
    if is_dir (st_fs s) (child folder "src") then child folder "src" else folder in
  (_load_changed_files (st_fs s) folder source_dir output_dir = None
   ∨ _load_changed_files (st_fs s) folder source_dir output_dir = Some ∅) →
  _update_overview_diagram folder output_dir overview_model s =
    (Ok None, add_log s INFO "No source changes detected; skipping overview update.").
Proof.
  intros source_dir Hload. unfold _update_overview_diagram, bind, get_fs.
  fold source_dir. destruct Hload as [-> | ->]; [done|].
  by rewrite bool_decide_eq_true_2.
Qed.

(** The source directory the two orchestrators pick is always below the
    folder, so its prefix is either empty or ["src/"]. *)
Lemma orchestrator_source_dir_relative (fs : FS) (folder : Path) :
  let source_dir :=
    if is_dir fs (child folder "src") then child folder "src" else folder in
  relative_to source_dir folder = Some [] ∨ relative_to source_dir folder = Some ["src"].
Proof.
  assert (Hself : ∀ p : Path, relative_to p p = Some []).
  { intros p. induction p as [|x p IH]; [done|]. simpl.
    by rewrite bool_decide_eq_true_2. }
  assert (Hchild : ∀ (p : Path) n, relative_to (child p n) p = Some [n]).
  { intros p n. unfold child. induction p as [|x p IH]; [done|]. simpl.
    by rewrite bool_decide_eq_true_2. }
  simpl. destruct (is_dir fs (child folder "src")); [right|left]; done.
Qed.

(** C1: an update run that finds no prior manifest, or cannot read the
    one it finds, is meant to regenerate everything. The code does not:
    it answers exactly as it does when nothing changed, logging that no
    source changes were detected and returning [None] with nothing
    generated. *)
Theorem C1_missing_prior_state_is_skipped `{Collaborators}
    (folder output_dir : Path) (overview_model : option string) (s : State) :
  (find_previous_manifest folder output_dir (st_fs s) = None
   ∨ ∃ pm, find_previous_manifest folder output_dir (st_fs s) = Some pm
           ∧ read_manifest_entries pm (st_fs s) = None) →
  _update_overview_diagram folder output_dir overview_model s =
    (Ok None, add_log s INFO "No source changes detected; skipping overview update.").
Proof.
  intros Hprior. apply update_skips. left.
  rewrite load_changed_files_eq. unfold changed_paths_of.
  destruct (is_file _ _); simpl; [|done].
  destruct Hprior as [-> | (pm & -> & Hpm)]; simpl; [done|].
  destruct (read_manifest_entries (child output_dir "manifest.json") _);
    simpl; [|done].
  by rewrite Hpm.
Qed.

(** C2: when both manifests are there and their diff is empty,
    [_load_changed_files] answers with the empty mapping, and the update
    run logs that there is nothing to do and returns [None]: no file is
    written, no manifest among them, and no background work is started.
    A manifest diffed against itself has an empty change set. *)
Theorem C2_no_change_no_work `{Collaborators}
    (folder output_dir : Path) (overview_model : option string) (s : State)
    (pm : Path) (current_entries previous_entries : gmap string ManifestEntry) :
  let fs := st_fs s in
  let source_dir :=
    if is_dir fs (child folder "src") then child folder "src" else folder in
  let summary := summarize_changes previous_entries current_entries in
  is_file fs (child output_dir "manifest.json") = true →
  find_previous_manifest folder output_dir fs = Some pm →
  read_manifest_entries (child output_dir "manifest.json") fs = Some current_entries →
  read_manifest_entries pm fs = Some previous_entries →
  added summary = [] → modified summary = [] → deleted summary = [] →
  _load_changed_files fs folder source_dir output_dir = Some ∅
  ∧ (∃ s', _update_overview_diagram folder output_dir overview_model s = (Ok None, s')
           ∧ st_fs s' = st_fs s
           ∧ st_threads s' = st_threads s
           ∧ st_log s' = st_log s ++
               [{| lr_level := INFO;
                   lr_msg := "No source changes detected; skipping overview update." |}])
  ∧ diff current_entries current_entries =
      {| cs_added := ∅; cs_modified := ∅; cs_deleted := ∅ |}
  ∧ spec_summarize_changes current_entries current_entries =
      {| added := []; modified := []; deleted := [] |}.
Proof.
  intros fs source_dir summary Hcur Hprev Hrc Hrp Ha Hm Hd.
  assert (Hload : _load_changed_files fs folder source_dir output_dir = Some ∅).
  { rewrite load_changed_files_eq. unfold changed_paths_of.
    rewrite Hcur, Hprev. simpl. rewrite Hrc. simpl. rewrite Hrp. simpl.
    fold summary. by rewrite Ha, Hm, Hd. }
  split_and!.
  - done.
  - eexists. split; [apply update_skips; by right|]. done.
  - apply diff_same.
  - apply spec_summarize_changes_same.
Qed.

Lemma load_changed_lookup `{Collaborators} fs root source_dir output_dir
    summary paths rel :
  changed_paths_of fs root output_dir = Some (summary, paths) →
  paths ≠ [] →
  relative_to source_dir root = Some rel →
  ∃ cf, _load_changed_files fs root source_dir output_dir = Some cf
        ∧ ∀ r, cf !! r =
            if bool_decide (Exists (λ p, rebase (source_prefix rel) p = Some r) paths)
            then status_of fs source_dir summary r else None.
Proof.
  intros Hcp Hne Hrel. rewrite load_changed_files_eq, Hcp, Hrel.
  rewrite bool_decide_eq_false_2 by done. eexists. split; [done|].
  intros r. rewrite changed_fold_lookup, lookup_empty.
  by destruct (status_of fs source_dir summary r).
Qed.





Lemma C1_missing_prior_state_is_skipped_witness :
  (@find_previous_manifest fresh_collaborators ["proj"] run2 src_tree = None
   ∨ ∃ pm, @find_previous_manifest fresh_collaborators ["proj"] run2 src_tree
             = Some pm
           ∧ @read_manifest_entries fresh_collaborators pm src_tree = None)
  ∧ @_update_overview_diagram fresh_collaborators ["proj"] run2 None
      (state_of src_tree)
    = (Ok None,
       add_log (state_of src_tree) INFO
         "No source changes detected; skipping overview update.").
Proof.
  assert (Hprior :
    @find_previous_manifest fresh_collaborators ["proj"] run2
      (st_fs (state_of src_tree)) = None
    ∨ ∃ pm, @find_previous_manifest fresh_collaborators ["proj"] run2
              (st_fs (state_of src_tree)) = Some pm
            ∧ @read_manifest_entries fresh_collaborators pm
                (st_fs (state_of src_tree)) = None)
    by (left; reflexivity).
  split; [exact Hprior|].
  exact (C1_missing_prior_state_is_skipped (H := fresh_collaborators)
           ["proj"] run2 None (state_of src_tree) Hprior).
Defined.

Lemma C2_no_change_no_work_witness :
  @_load_changed_files same_collaborators src_tree ["proj"] ["proj"; "src"] run2
    = Some ∅
  ∧ ∃ s', @_update_overview_diagram same_collaborators ["proj"] run2 None
            (state_of src_tree) = (Ok None, s')
          ∧ st_fs s' = src_tree.
Proof.
  pose (cur := list_to_map [("src/keep.py", entry "k1")]
               : gmap string ManifestEntry).
  destruct (C2_no_change_no_work (H := same_collaborators) ["proj"] run2 None
              (state_of src_tree) (child run1 "manifest.json") cur cur)
    as (Hload & (s' & Hrun & Hfs & _) & _).
  - reflexivity.
  - reflexivity.
  - reflexivity.
  - reflexivity.
  - by vm_compute.
  - by vm_compute.
  - by vm_compute.
  - split; [exact Hload|]. exists s'. split; [exact Hrun | exact Hfs].
Defined.

(** ** Deleted paths *)

(** Where the source directory is the root itself, every deleted path
    is recorded as deleted, whether or not a file is there. *)
Lemma deleted_kept_at_root `{Collaborators} fs root output_dir summary paths p :
  changed_paths_of fs root output_dir = Some (summary, paths) →
  p ∈ deleted summary → p ∈ paths → p ≠ "" →
  ∃ cf, _load_changed_files fs root root output_dir = Some cf
        ∧ cf !! p = Some "deleted".
Proof.
  intros Hcp Hdel Hin Hne.
  assert (Hrel : relative_to root root = Some []).
  { clear. induction root as [|x r IH]; [done|]. simpl.
    by rewrite bool_decide_eq_true_2. }
  destruct (load_changed_lookup fs root root output_dir summary paths []
              Hcp ltac:(by intros ->; apply elem_of_nil in Hin) Hrel)
    as (cf & Hload & Hlook).
  exists cf. split; [done|]. rewrite Hlook.
  rewrite bool_decide_eq_true_2.
  - unfold status_of. by rewrite bool_decide_eq_true_2.
  - apply Exists_exists. exists p. split; [done|]. by apply rebase_Some.
Qed.

(** Below a source prefix a deleted path is looked up under its rebased
    name in the list of original names, where it is not found; its file
    is gone, so the path is dropped. *)
Lemma deleted_dropped_below_prefix `{Collaborators} fs root source_dir
    output_dir summary paths rel r :
  changed_paths_of fs root output_dir = Some (summary, paths) →
  relative_to source_dir root = Some rel →
  source_prefix rel +:+ r ∈ deleted summary →
  r ∉ deleted summary →
  is_file fs (joinpath source_dir r) = false →
  ∀ cf, _load_changed_files fs root source_dir output_dir = Some cf →
        cf !! r = None.
Proof.
  intros Hcp Hrel Hdel Hnot Hfile cf Hload.
  rewrite load_changed_files_eq, Hcp in Hload.
  case_bool_decide; [injection Hload as <-; apply lookup_empty|].
  rewrite Hrel in Hload. injection Hload as <-.
  rewrite changed_fold_lookup, lookup_empty. case_bool_decide; [|done].
  unfold status_of. rewrite bool_decide_eq_false_2 by done. by rewrite Hfile.
Qed.

(** The headers [combine_src_files] appends for deleted paths. *)
Lemma deleted_parts_header (a : gmap string string) p :
  a !! p = Some "deleted" →
  "### FILE: " +:+ p +:+ " (deleted)" ∈ deleted_parts (Some a).
Proof.
  intros Hp. unfold deleted_parts. apply list_elem_of_In, in_flat_map.
  exists p. split; [|by left].
  apply list_elem_of_In. rewrite merge_sort_Permutation.
  apply list_elem_of_fmap. exists (p, "deleted"). split; [done|].
  apply list_elem_of_filter. split; [done|]. by apply elem_of_map_to_list.
Qed.

(** C6: a deleted path within the source prefix is meant to reach the
    combined text as a header marked deleted. With a [src] folder the
    code loses it: [src/a.py] is deleted, yet the mapping holds only
    [keep.py] and the text has no header for [a.py]. The same history
    without a [src] folder keeps the marker. *)
Theorem C6_deleted_below_src_is_lost :
  deleted (@summarize_changes src_collaborators
             (list_to_map [("src/a.py", entry "aa"); ("src/keep.py", entry "k1")])
             (list_to_map [("src/keep.py", entry "k2")]))
    = ["src/a.py"]
  ∧ @_load_changed_files src_collaborators src_tree ["proj"] ["proj"; "src"] run2
    = Some {["keep.py" := "updated"]}
  ∧ combine_parts src_tree ["proj"; "src"]
      (@_load_changed_files src_collaborators src_tree ["proj"] ["proj"; "src"] run2)
    = ["### FILE: keep.py (updated)"; "[1] print(1)"; ""]
  ∧ @_load_changed_files flat_collaborators flat_tree ["proj"] ["proj"] run2
    = Some (<["a.py" := "deleted"]> {["keep.py" := "updated"]})
  ∧ combine_parts flat_tree ["proj"]
      (@_load_changed_files flat_collaborators flat_tree ["proj"] ["proj"] run2)
    = ["### FILE: keep.py (updated)"; "[1] print(1)"; "";
       "### FILE: a.py (deleted)"; ""].
Proof. split_and!; by vm_compute. Qed.

(** C10: deleted paths are meant to be kept without any look at the
    disk, and added or modified ones only when their file is there.
    With a [src] folder the code also asks for the file of a deleted
    path: [src/old.py] is deleted and is dropped because no file
    [old.py] is left, and the new file [src/new.py] is recorded as
    updated. *)
Theorem C10_deleted_path_needs_its_file :
  @changed_paths_of churn_collaborators churn_tree ["proj"] run2
    = Some ({| added := ["src/new.py"]; modified := ["src/main.py"];
               deleted := ["src/old.py"] |},
            ["src/new.py"; "src/main.py"; "src/old.py"])
  ∧ is_file churn_tree (joinpath ["proj"; "src"] "old.py") = false
  ∧ @_load_changed_files churn_collaborators churn_tree ["proj"] ["proj"; "src"] run2
    = Some (<["new.py" := "updated"]> {["main.py" := "updated"]})
  ∧ (∀ cf,
       @_load_changed_files churn_collaborators churn_tree ["proj"] ["proj"; "src"] run2
         = Some cf →
       cf !! "old.py" = None).
Proof.
  split_and!; try by vm_compute.
  intros cf Hload.
  assert (Heq : cf = <["new.py" := "updated"]> {["main.py" := "updated"]}).
  { assert (Some cf = Some (<["new.py" := "updated"]> {["main.py" := "updated"]}))
      as [= ->]; [|done].
    rewrite <- Hload. by vm_compute. }
  subst cf. by vm_compute.
Qed.

(** Whatever the prefix, a path recorded with a status other than
    deleted has its file in the source directory. *)
Lemma recorded_file_exists `{Collaborators} fs root source_dir output_dir cf r v :
  _load_changed_files fs root source_dir output_dir = Some cf →
  cf !! r = Some v → v ≠ "deleted" →
  is_file fs (joinpath source_dir r) = true
  ∧ (v = "added" ∨ v = "updated").
Proof.
  intros Hload Hr Hv. rewrite load_changed_files_eq in Hload.
  destruct (changed_paths_of fs root output_dir) as [[summary paths]|]; [|done].
  case_bool_decide.
  { injection Hload as <-. by rewrite lookup_empty in Hr. }
  destruct (relative_to source_dir root) as [rel|]; [|done].
  injection Hload as <-.
  rewrite changed_fold_lookup, lookup_empty in Hr.
  case_bool_decide; [|done]. unfold status_of in Hr.
  case_bool_decide; [congruence|].
  destruct (is_file fs (joinpath source_dir r)); [|done]. split; [done|].
  case_bool_decide; injection Hr as <-; eauto.
Qed.

(** ** Reusing node diagrams *)

Lemma reuse_suffix_run i previous_run_dir output_dir copied suffix s :
  ∃ s', reuse_suffix i previous_run_dir output_dir copied suffix s =
          (Ok (copied || artifact_copied previous_run_dir output_dir i suffix s), s').
Proof.
  unfold reuse_suffix, artifact_copied, bind, get_fs.
  destruct (is_file (st_fs s) _) eqn:Hf; simpl.
  - unfold try_except, bind.
    destruct (copy2 _ _ s) as [[[]|e] s1]; simpl; unfold ret.
    + eexists. by rewrite orb_true_r.
    + eexists. by rewrite orb_false_r.
  - unfold ret. eexists. by rewrite orb_false_r.
Qed.

(** One node: no exception leaves [_reuse_previous_node_diagram], and it
    answers [True] exactly when one of the two copies succeeded. *)
Lemma reuse_previous_node_diagram_run i previous_run_dir output_dir s :
  let s1 := snd (reuse_suffix i previous_run_dir output_dir false "json" s) in
  ∃ s', _reuse_previous_node_diagram i previous_run_dir output_dir s =
          (Ok (artifact_copied previous_run_dir output_dir i "json" s
               || artifact_copied previous_run_dir output_dir i "d2" s1), s').
Proof.
  intros s1. unfold _reuse_previous_node_diagram, bind.
  destruct (reuse_suffix_run i previous_run_dir output_dir false "json" s)
    as [s1' Hj].
  unfold s1. rewrite Hj. simpl.
  destruct (reuse_suffix_run i previous_run_dir output_dir
              (artifact_copied previous_run_dir output_dir i "json" s) "d2" s1')
    as [s2 Hd].
  rewrite Hd.
  destruct (artifact_copied previous_run_dir output_dir i "json" s
            || artifact_copied previous_run_dir output_dir i "d2" s1');
    eexists; reflexivity.
Qed.

Lemma include_loop_total `{Collaborators} U previous_run_dir output_dir nodes acc s :
  ∃ inc s', include_loop U previous_run_dir output_dir nodes acc s = (Ok inc, s').
Proof.
  revert acc s. induction nodes as [|node nodes IH]; intros acc s; simpl.
  - unfold ret. eauto.
  - destruct (truthy_id node) as [i|]; [|apply IH].
    case_bool_decide; [apply IH|]. unfold bind.
    destruct (reuse_previous_node_diagram_run i previous_run_dir output_dir s)
      as [s1 ->].
    apply IH.
Qed.





(** ** Failing services *)

Lemma write_text_cases p text s :
  (∃ e, write_text p text s = (Raise e, s))
  ∨ write_text p text s = (Ok tt, set_fs s (<[p := File text]> (st_fs s))).
Proof.
  unfold write_text, bind, get_fs, raise, put_fs. simpl.
  destruct (st_fs s !! p) as [[?|]|];
    destruct (st_fs s !! parent p) as [[?|]|]; eauto.
Qed.









(** * Further properties *)

(** ** The state directory *)

(** X1: whatever [ensure_unslop_dir] does, it touches nothing but the
    entry [.unslop] itself, writes no log record and starts no work;
    when it returns, it returns [.unslop], which is then a directory. *)
Theorem ensure_unslop_dir_frame (root : Path) (s : State) :
  ∃ r s', ensure_unslop_dir root s = (r, s')
    ∧ st_log s' = st_log s ∧ st_threads s' = st_threads s
    ∧ (∀ p, p ≠ child root ".unslop" → st_fs s' !! p = st_fs s !! p)
    ∧ (∀ u, r = Ok u → u = child root ".unslop" ∧ st_fs s' !! u = Some Dir).
Proof.
  unfold ensure_unslop_dir, bind, get_fs, exists_, is_dir.
  destruct (st_fs s !! child root ".unslop") as [[c|]|] eqn:Hu; simpl.
  - unfold unlink, bind, get_fs. rewrite Hu. simpl.
    unfold mkdir, bind, get_fs. simpl. rewrite lookup_delete_eq.
    rewrite parent_child.
    destruct (delete (child root ".unslop") (st_fs s) !! root) as [[?|]|];
      simpl; eexists _, _; (split; [done|]); simpl; split_and!; try done.
    + intros p Hp. by rewrite lookup_delete_ne.
    + intros p Hp. by rewrite lookup_insert_ne, lookup_delete_ne.
    + intros u [= <-]. by rewrite lookup_insert_eq.
    + intros p Hp. by rewrite lookup_delete_ne.
  - unfold mkdir, bind, get_fs. rewrite Hu. simpl.
    eexists _, _. split; [done|]. split_and!; try done.
    by intros u [= <-].
  - unfold mkdir, bind, get_fs. rewrite Hu, parent_child. simpl.
    destruct (st_fs s !! root) as [[?|]|]; simpl;
      eexists _, _; (split; [done|]); simpl; split_and!; try done.
    + intros p Hp. by rewrite lookup_insert_ne.
    + intros u [= <-]. by rewrite lookup_insert_eq.
Qed.

(** X2: [ensure_unslop_dir] is idempotent: once it has returned, calling
    it again returns the same directory and changes nothing at all. *)
Theorem ensure_unslop_dir_idempotent (root : Path) (s s' : State) (u : Path) :
  ensure_unslop_dir root s = (Ok u, s') →
  ensure_unslop_dir root s' = (Ok u, s').
Proof.
  intros Hrun.
  destruct (ensure_unslop_dir_frame root s) as (r & s1 & Hrun' & _ & _ & _ & Hpost).
  rewrite Hrun in Hrun'. injection Hrun' as <- <-.
  destruct (Hpost u eq_refl) as [-> Hdir].
  unfold ensure_unslop_dir, bind, get_fs, exists_, is_dir. rewrite Hdir. simpl.
  unfold mkdir, bind, get_fs. by rewrite Hdir.
Qed.

Lemma ensure_unslop_dir_idempotent_witness :
  ∃ s', ensure_unslop_dir ["proj"] legacy_state = (Ok ["proj"; ".unslop"], s')
        ∧ ensure_unslop_dir ["proj"] s' = (Ok ["proj"; ".unslop"], s').
Proof.
  eexists. split; [reflexivity|].
  apply (ensure_unslop_dir_idempotent ["proj"] legacy_state). reflexivity.
Defined.

(** X3: [ensure_unslop_dir] succeeds exactly when [.unslop] already is a
    directory or the project root is one; otherwise it raises. *)
Theorem ensure_unslop_dir_succeeds_iff (root : Path) (s : State) :
  (∃ u s', ensure_unslop_dir root s = (Ok u, s'))
  ↔ st_fs s !! child root ".unslop" = Some Dir ∨ st_fs s !! root = Some Dir.
Proof.
  unfold ensure_unslop_dir, bind, get_fs, exists_, is_dir.
  destruct (st_fs s !! child root ".unslop") as [[c|]|] eqn:Hu; simpl.
  - unfold unlink, bind, get_fs. rewrite Hu. simpl.
    unfold mkdir, bind, get_fs. simpl. rewrite lookup_delete_eq.
    rewrite parent_child, lookup_delete_ne by apply child_ne_parent.
    destruct (st_fs s !! root) as [[?|]|]; simpl; split;
      try (intros (u & s' & [=]); fail); try (intros [[=]|[=]]; fail);
      eauto.
  - unfold mkdir, bind, get_fs. rewrite Hu. simpl. split; eauto.
  - unfold mkdir, bind, get_fs. rewrite Hu, parent_child. simpl.
    destruct (st_fs s !! root) as [[?|]|]; simpl; split;
      try (intros (u & s' & [=]); fail); try (intros [[=]|[=]]; fail);
      eauto.
Qed.

(** X4: [create_run_dir] is append-only: no entry of the tree is removed
    or changed, a non-directory at [.unslop] apart, whether the call
    returns or raises; nothing is logged and no work is started. *)
Theorem create_run_dir_append_only (now : datetime) (rnd : N) (root : Path)
    (s : State) :
  ∃ r s', create_run_dir now rnd root s = (r, s')
    ∧ st_log s' = st_log s ∧ st_threads s' = st_threads s
    ∧ ∀ p x, st_fs s !! p = Some x →
        (p = child root ".unslop" → x = Dir) →
        st_fs s' !! p = Some x.
Proof.
  unfold create_run_dir, bind.
  destruct (ensure_unslop_dir_frame root s)
    as (r & s1 & Hrun & Hlog & Hth & Hframe & Hpost).
  rewrite Hrun.
  assert (Hkeep : ∀ p x, st_fs s !! p = Some x →
            (p = child root ".unslop" → x = Dir) → st_fs s1 !! p = Some x).
  { intros p x Hp Hx. destruct (decide (p = child root ".unslop")) as [->|Hne];
      [|by rewrite Hframe].
    rewrite (Hx eq_refl) in Hp.
    revert Hrun. unfold ensure_unslop_dir, bind, get_fs, exists_, is_dir.
    rewrite Hp. simpl. unfold mkdir, bind, get_fs. rewrite Hp. simpl.
    unfold ret. intros [= <- <-]. by rewrite Hx. }
  destruct r as [u|e]; [|eexists _, _; split; [done|]; done].
  unfold mkdir, bind, get_fs. simpl.
  destruct (st_fs s1 !! child u _) as [[?|]|] eqn:Hrd; simpl;
    try (eexists _, _; split; [done|]; done).
  destruct (st_fs s1 !! parent _) as [[?|]|]; simpl;
    eexists _, _; (split; [done|]); simpl; split_and!; try done.
  intros p x Hp Hx. rewrite lookup_insert_ne; [by apply Hkeep|].
  intros <-. rewrite (Hkeep _ _ Hp Hx) in Hrd. done.
Qed.

Lemma ensure_unslop_dir_present root s :
  st_fs s !! child root ".unslop" = Some Dir →
  ensure_unslop_dir root s = (Ok (child root ".unslop"), s).
Proof.
  intros Hu. unfold ensure_unslop_dir, bind, get_fs, exists_, is_dir.
  rewrite Hu. simpl. unfold mkdir, bind, get_fs. by rewrite Hu.
Qed.

(** X5: when the name drawn for the run directory is already taken,
    [create_run_dir] raises [FileExistsError] and changes nothing. *)
Theorem create_run_dir_collision (now : datetime) (rnd : N) (root : Path)
    (s : State) :
  st_fs s !! child root ".unslop" = Some Dir →
  is_Some (st_fs s !! child (child root ".unslop") (run_dir_name now rnd)) →
  create_run_dir now rnd root s = (Raise FileExistsError, s).
Proof.
  intros Hu [x Hx]. unfold create_run_dir, bind.
  rewrite ensure_unslop_dir_present by done.
  fold (run_dir_name now rnd). unfold mkdir, bind, get_fs. rewrite Hx.
  by destruct x.
Qed.

Lemma create_run_dir_collision_witness :
  st_fs (state_of reuse_tree) !! child ["proj"] ".unslop" = Some Dir
  ∧ is_Some (st_fs (state_of reuse_tree)
               !! child (child ["proj"] ".unslop")
                    (run_dir_name
                       {| year := 2025; month := 1; day := 1;
                          hour := 0; minute := 0; second := 0 |} 1))
  ∧ create_run_dir
      {| year := 2025; month := 1; day := 1; hour := 0; minute := 0; second := 0 |}
      1 ["proj"] (state_of reuse_tree)
    = (Raise FileExistsError, state_of reuse_tree).
Proof.
  assert (Hu : st_fs (state_of reuse_tree) !! child ["proj"] ".unslop" = Some Dir)
    by reflexivity.
  assert (Hx : is_Some (st_fs (state_of reuse_tree)
               !! child (child ["proj"] ".unslop")
                    (run_dir_name
                       {| year := 2025; month := 1; day := 1;
                          hour := 0; minute := 0; second := 0 |} 1)))
    by (exists Dir; vm_compute; reflexivity).
  refine (conj Hu (conj Hx _)).
  exact (create_run_dir_collision _ 1 ["proj"] (state_of reuse_tree) Hu Hx).
Defined.

Lemma child_ne_nil (d : Path) n : child d n ≠ [].
Proof.
  unfold child. intros Heq. apply (f_equal length) in Heq.
  rewrite length_app in Heq. simpl in Heq. lia.
Qed.

Lemma path_is_child (p : Path) : p ≠ [] → p = child (parent p) (name p).
Proof.
  intros Hne. destruct (exists_last Hne) as (d & n & ->).
  fold (child d n). by rewrite parent_child, name_child.
Qed.

(** X6: a run directory created under a name that sorts after those of
    the run directories already there is the latest one. *)
Theorem latest_run_dir_after_create (now : datetime) (rnd : N) (root : Path)
    (s : State) :
  let run_dir := child (child root ".unslop") (run_dir_name now rnd) in
  valid_clock now → (rnd < 10000)%N →
  wf_fs (st_fs s) →
  st_fs s !! root = Some Dir →
  st_fs s !! run_dir = None →
  (∀ q, q ∈ list_run_dirs (st_fs s) root →
        str_le (name q) (run_dir_name now rnd)) →
  ∃ s', create_run_dir now rnd root s = (Ok run_dir, s')
        ∧ latest_run_dir (st_fs s') root = Some run_dir
        ∧ ∀ q, q ∈ list_run_dirs (st_fs s) root →
               q ∈ list_run_dirs (st_fs s') root.
Proof.
  intros run_dir Hv Hr Hwf Hroot Hfresh Hlater.
  destruct (run_dir_name_matches now rnd Hv Hr) as [Hre _].
  eexists. split; [by apply create_run_dir_run|]. simpl.
  set (fs' := <[run_dir := Dir]> (<[child root ".unslop" := Dir]> (st_fs s))).
  assert (Hne : run_dir ≠ child root ".unslop") by apply child_ne_parent.
  assert (Hu' : fs' !! child root ".unslop" = Some Dir).
  { unfold fs'. rewrite lookup_insert_ne by done. apply lookup_insert_eq. }
  assert (Hnew : run_dir ∈ list_run_dirs fs' root).
  { apply elem_of_list_run_dirs.
    assert (Hn : name run_dir = run_dir_name now rnd) by apply name_child.
    assert (Hp : parent run_dir = child root ".unslop") by apply parent_child.
    assert (Hd : fs' !! run_dir = Some Dir) by apply lookup_insert_eq.
    rewrite Hn, Hp. unfold is_dir. rewrite Hu', Hd.
    split_and!; try done. apply child_ne_nil. }
  assert (Hold : ∀ q, q ∈ list_run_dirs fs' root → q ≠ run_dir →
                      q ∈ list_run_dirs (st_fs s) root).
  { intros q (_ & Hpar & Hq & Hdir & Hqre)%elem_of_list_run_dirs Hqne.
    apply elem_of_list_run_dirs.
    assert (Hqu : q ≠ child root ".unslop").
    { intros ->. rewrite parent_child in Hpar.
      by apply (child_ne_parent root ".unslop"). }
    unfold is_dir, fs' in Hdir. rewrite !lookup_insert_ne in Hdir by done.
    destruct (st_fs s !! q) as [[?|]|] eqn:Hsq; try done.
    pose proof (Hwf q Dir Hsq Hq) as Hp. rewrite Hpar in Hp.
    unfold is_dir. rewrite Hp, Hsq. done. }
  split.
  - unfold latest_run_dir.
    destruct (last (list_run_dirs fs' root)) as [p|] eqn:Hlast.
    2: { apply last_None in Hlast. rewrite Hlast in Hnew.
         by apply elem_of_nil in Hnew. }
    f_equal. destruct (decide (p = run_dir)) as [->|Hp]; [done|].
    exfalso.
    pose proof (last_Some_elem_of _ _ Hlast) as Hin.
    pose proof (Hlater p (Hold p Hin Hp)) as Hle1.
    destruct (strongly_sorted_last name_le _ _ (list_run_dirs_sorted fs' root)
                Hlast run_dir Hnew) as [Heq|Hle2]; [done|].
    unfold name_le in Hle2.
    assert (Hn : name run_dir = run_dir_name now rnd) by apply name_child.
    rewrite Hn in Hle2.
    assert (Hname : name p = run_dir_name now rnd)
      by (by apply String.leb_antisym).
    apply elem_of_list_run_dirs in Hin as (_ & Hpar & Hpne & _).
    apply Hp. rewrite (path_is_child p Hpne), Hpar, Hname. done.
  - intros q (Hu & Hpar & Hq & Hdir & Hqre)%elem_of_list_run_dirs.
    apply elem_of_list_run_dirs. fold run_dir. fold fs'.
    unfold is_dir. rewrite Hu'. split_and!; try done.
    unfold is_dir in Hdir. destruct (st_fs s !! q) as [[?|]|] eqn:Hsq; try done.
    unfold fs'. rewrite lookup_insert_ne by (intros <-; congruence).
    rewrite lookup_insert_ne, Hsq; [done|].
    intros <-. rewrite parent_child in Hpar.
    by apply (child_ne_parent root ".unslop").
Qed.

Lemma latest_run_dir_after_create_witness :
  ∃ s', create_run_dir clock_2026 42 ["proj"] (state_of reuse_tree)
        = (Ok (child (child ["proj"] ".unslop") (run_dir_name clock_2026 42)), s')
      ∧ latest_run_dir (st_fs s') ["proj"]
        = Some (child (child ["proj"] ".unslop") (run_dir_name clock_2026 42)).
Proof.
  assert (Hlater : ∀ q, q ∈ list_run_dirs (st_fs (state_of reuse_tree)) ["proj"] →
                        str_le (name q) (run_dir_name clock_2026 42)).
  { intros q Hq.
    assert (Hl : list_run_dirs (st_fs (state_of reuse_tree)) ["proj"]
                 = [run1; run2]) by (vm_compute; reflexivity).
    rewrite Hl in Hq. clear Hl. rewrite !elem_of_cons in Hq.
    destruct Hq as [->|[->|Hq]].
    - vm_compute. reflexivity.
    - vm_compute. reflexivity.
    - apply elem_of_nil in Hq. destruct Hq. }
  assert (Hv : valid_clock clock_2026) by (unfold valid_clock; simpl; lia).
  assert (Hr : (42 < 10000)%N) by lia.
  assert (Hwf : wf_fs (st_fs (state_of reuse_tree)))
    by (apply (bool_decide_unpack (wf_fs reuse_tree)); vm_compute; exact I).
  assert (Hroot : st_fs (state_of reuse_tree) !! ["proj"] = Some Dir)
    by (vm_compute; reflexivity).
  assert (Hfresh : st_fs (state_of reuse_tree)
                     !! child (child ["proj"] ".unslop")
                          (run_dir_name clock_2026 42) = None)
    by (vm_compute; reflexivity).
  destruct (latest_run_dir_after_create clock_2026 42 ["proj"]
              (state_of reuse_tree) Hv Hr Hwf Hroot Hfresh Hlater)
    as (s' & Hrun & Hlatest & _).
  exists s'. exact (conj Hrun Hlatest).
Defined.

(** ** The pattern of run identifiers *)





(** ** Finding the renderer *)

(** X8: [_find_d2_bin] returns the first candidate, in the order
    environment variable, the three fixed paths, [shutil.which], that is
    non-empty and passes [_is_valid_d2_bin]; it returns [None] exactly
    when no candidate does. A binary passes when it is an executable
    file whose [--version] run exits with 0. *)
Theorem find_d2_bin_first_valid `{Collaborators} :
  match _find_d2_bin with
  | Some d2_bin =>
      ∃ i, d2_candidates !! i = Some d2_bin
        ∧ d2_bin ≠ "" ∧ _is_valid_d2_bin d2_bin = true
        ∧ ∀ j cand, d2_candidates !! j = Some cand → (j < i)%nat →
            cand = "" ∨ _is_valid_d2_bin cand = false
  | None =>
      ∀ cand, cand ∈ d2_candidates →
        cand = "" ∨ _is_valid_d2_bin cand = false
  end
  ∧ (∀ path, _is_valid_d2_bin path = true
       ↔ is_executable_file path = true ∧ run_d2_version path = Ok 0%Z).
Proof.
  split.
  - unfold _find_d2_bin. fold d2_candidates.
    destruct (list_find _ d2_candidates) as [[i b]|] eqn:Hfind; simpl.
    + apply list_find_Some in Hfind as (Hi & [Hne Hv] & Hbefore).
      exists i. split_and!; try done.
      * by apply Is_true_true.
      * intros j cand Hj Hlt. specialize (Hbefore j cand Hj Hlt).
        destruct (decide (cand = "")) as [|Hc]; [by left|right].
        destruct (_is_valid_d2_bin cand) eqn:Hvc; [|done].
        exfalso. apply Hbefore. done.
    + intros cand Hin.
      apply list_find_None in Hfind. rewrite Forall_forall in Hfind.
      specialize (Hfind cand Hin).
      destruct (decide (cand = "")) as [|Hc]; [by left|right].
      destruct (_is_valid_d2_bin cand) eqn:Hvc; [|done].
      exfalso. apply Hfind. done.
  - intros path. unfold _is_valid_d2_bin.
    destruct (is_executable_file path); simpl; [|by split; [|intros [? _]]].
    destruct (run_d2_version path) as [rc|e]; [|by split; [|intros [_ ?]]].
    rewrite bool_decide_eq_true. split; [by intros ->|by intros [_ [= ->]]].
Qed.

(** X9: a valid binary named by [UNSLOP_D2_BIN] wins over every other
    candidate. *)
Theorem find_d2_bin_prefers_environment `{Collaborators} (d2_bin : string) :
  environ_UNSLOP_D2_BIN = Some d2_bin →
  d2_bin ≠ "" →
  _is_valid_d2_bin d2_bin = true →
  find_d2_bin = Some d2_bin.
Proof.
  intros Henv Hne Hv. unfold find_d2_bin, _find_d2_bin. rewrite Henv.
  cbn [omap list_omap id]. unfold list_find. cbn [list_find].
  rewrite decide_True; [done|]. split; [done|]. by rewrite Hv.
Qed.

(** ** The background job *)

(** X10: no exception leaves the body of the background thread, whatever
    the node generator does, and the last thing it logs is that the
    per-node generation is complete. *)
Theorem node_diagrams_run_contained `{Collaborators} (job : NodeJob) (s : State) :
  ∃ s', node_diagrams_run job s = (Ok tt, s')
        ∧ last (st_log s') =
            Some {| lr_level := INFO;
                    lr_msg := "Per-node diagram generation complete." |}.
Proof.
  unfold node_diagrams_run, bind at 1.
  match goal with |- context [try_except ?m ?h s] =>
    destruct (try_except m h s) as [r s1] eqn:Htry end.
  assert (Hr : r = Ok tt).
  { revert Htry. unfold try_except.
    match goal with |- context [bind ?m ?k s] =>
      destruct (bind m k s) as [[[]|e] s0] end.
    - by intros [= <- <-].
    - unfold logger. by intros [= <- <-]. }
  subst r. unfold logger. eexists. split; [done|]. simpl. apply last_snoc.
Qed.

(** X11: [_prepare_node_diagram_inputs] copies nothing unless it returns
    a set: whenever it returns [None] (no previous run, an unreadable
    schema, or no node marked unchanged) the state is untouched. *)
Theorem prepare_none_leaves_state `{Collaborators}
    (schema_path output_dir : Path) (previous_run_dir : option Path)
    (s s' : State) :
  _prepare_node_diagram_inputs schema_path output_dir previous_run_dir s
    = (Ok None, s') →
  s' = s.
Proof.
  unfold _prepare_node_diagram_inputs.
  destruct previous_run_dir as [prev|]; [|by intros [= <-]].
  unfold bind, try_except, read_text, bind, get_fs.
  destruct (st_fs s !! schema_path) as [[text|]|]; simpl;
    try (unfold ret; by intros [= <-]).
  unfold ret. destruct (schema_nodes text) as [nodes|]; [|by intros [= <-]].
  case_bool_decide; [by intros [= <-]|].
  destruct (include_loop_total (unchanged_ids_of nodes) prev output_dir nodes ∅ s)
    as (inc & s1 & ->).
  by intros [=].
Qed.

(** ** The combined text *)

Lemma rstrip_idem s : rstrip (rstrip s) = rstrip s.
Proof.
  induction s as [|a s IH]; [done|]. cbn [rstrip].
  destruct (bool_decide (rstrip s = "") && is_space a) eqn:Hc; [done|].
  cbn [rstrip]. by rewrite IH, Hc.
Qed.

Lemma combine_file_app fs src_path allowed_files parts file_path :
  combine_file fs src_path allowed_files parts file_path =
    parts ++ file_block fs src_path allowed_files file_path.
Proof.
  unfold file_block, combine_file.
  destruct (match allowed_files with Some _ => _ | None => _ end);
    [by rewrite app_nil_r|].
  destruct (existsb _ _); [by rewrite app_nil_r|].
  done.
Qed.

Lemma combine_fold_blocks fs src_path allowed_files parts files :
  foldl (combine_file fs src_path allowed_files) parts files =
    parts ++ flat_map (file_block fs src_path allowed_files) files.
Proof.
  revert parts. induction files as [|f files IH]; intros parts; simpl.
  - by rewrite app_nil_r.
  - by rewrite IH, combine_file_app, <- app_assoc.
Qed.

(** X12: the parts [combine_src_files] assembles are the blocks of the
    files below the source directory, in sorted order, followed by the
    headers of the deleted paths. A file contributes nothing when
    [allowed_files] is given and lacks it, or when a segment of its
    relative path starts with a dot, listed or not; any other file
    contributes its header, its numbered lines and an empty line. *)
Theorem combine_parts_blocks (fs : FS) (src_path : Path)
    (allowed_files : option (gmap string string)) :
  combine_parts fs src_path allowed_files =
    flat_map (file_block fs src_path allowed_files) (rglob_files fs src_path)
    ++ deleted_parts allowed_files
  ∧ ∀ file_path,
      let rel_path := default [] (relative_to file_path src_path) in
      let text := match fs !! file_path with Some (File c) => c | _ => "" end in
      ((∃ a, allowed_files = Some a ∧ a !! as_posix rel_path = None) →
         file_block fs src_path allowed_files file_path = [])
      ∧ (existsb (λ part, startswith part ".") rel_path = true →
         file_block fs src_path allowed_files file_path = [])
      ∧ ((∀ a, allowed_files = Some a → is_Some (a !! as_posix rel_path)) →
         existsb (λ part, startswith part ".") rel_path = false →
         ∃ label,
           file_block fs src_path allowed_files file_path =
             ("### FILE: " +:+ as_posix rel_path +:+ label)
               :: numbered 1 (splitlines text) ++ [""]
           ∧ (label = "" ∨ ∃ a status, allowed_files = Some a
                ∧ a !! as_posix rel_path = Some status
                ∧ label = " (" +:+ status +:+ ")")).
Proof.
  split.
  - unfold combine_parts. by rewrite combine_fold_blocks.
  - intros file_path rel_path text. split_and!.
    + intros (a & -> & Ha). unfold file_block, combine_file. fold rel_path.
      by rewrite bool_decide_eq_true_2.
    + intros Hh. unfold file_block, combine_file. fold rel_path. rewrite Hh.
      by destruct (match allowed_files with Some _ => _ | None => _ end).
    + intros Hallowed Hh. unfold file_block, combine_file.
      fold rel_path text. rewrite Hh.
      destruct allowed_files as [a|].
      * destruct (Hallowed a eq_refl) as [status Hs].
        rewrite bool_decide_eq_false_2 by (by rewrite Hs).
        rewrite bool_decide_eq_false_2
          by (intros ->; by rewrite lookup_empty in Hs).
        rewrite Hs. eexists. split; [done|].
        case_bool_decide; [by left|right]. by exists a, status.
      * eexists. split; [done|]. by left.
Qed.

Lemma deleted_parts_empty : deleted_parts (Some ∅) = [].
Proof. unfold deleted_parts. by rewrite map_to_list_empty. Qed.

Lemma combine_parts_empty_dict fs src_path : combine_parts fs src_path (Some ∅) = [].
Proof.
  destruct (combine_parts_blocks fs src_path (Some ∅)) as [-> Hblock].
  rewrite deleted_parts_empty, app_nil_r.
  induction (rglob_files fs src_path) as [|f files IH]; [done|]. simpl.
  rewrite IH, app_nil_r.
  destruct (Hblock f) as (Hskip & _ & _). apply Hskip.
  exists ∅. split; [done|]. apply lookup_empty.
Qed.

(** X13: the outcome of [combine_src_files]. A missing source directory
    raises [FileNotFoundError]; whenever the call raises, nothing has
    changed. When it returns, the text is in the output file, nothing
    else has changed, and the text ends in a newline that no white space
    precedes. *)
Theorem combine_src_files_outcome (src_path output_path : Path)
    (allowed_files : option (gmap string string)) (s : State) :
  ∃ r s', combine_src_files src_path output_path allowed_files s = (r, s')
    ∧ (exists_ (st_fs s) src_path = false → r = Raise FileNotFoundError)
    ∧ match r with
      | Raise _ => s' = s
      | Ok combined =>
          s' = set_fs s (<[output_path := File combined]> (st_fs s))
          ∧ ∃ body, combined = body +:+ String newline ""
                    ∧ rstrip body = body
      end.
Proof.
  unfold combine_src_files, bind, get_fs. simpl.
  destruct (exists_ (st_fs s) src_path); simpl.
  - match goal with |- context [write_text ?p ?c s] =>
      destruct (write_text_cases p c s) as [[e ->] | ->] end.
    + eexists _, _. split; [done|]. done.
    + eexists _, _. split; [done|]. split; [done|]. split; [done|].
      eexists. split; [done|]. apply rstrip_idem.
  - eexists _, _. split; [done|]. done.
Qed.

(** X14: with an empty [allowed_files] mapping no file is included,
    whatever the tree holds, and the combined text is a single newline. *)
Theorem combine_src_files_empty_dict (src_path output_path : Path) (s : State) :
  exists_ (st_fs s) src_path = true →
  st_fs s !! parent output_path = Some Dir →
  is_dir (st_fs s) output_path = false →
  combine_src_files src_path output_path (Some ∅) s =
    (Ok (String newline ""),
     set_fs s (<[output_path := File (String newline "")]> (st_fs s))).
Proof.
  intros Hsrc Hparent Hout.
  unfold combine_src_files, bind, get_fs. simpl. rewrite Hsrc. simpl.
  rewrite combine_parts_empty_dict. simpl.
  unfold write_text, bind, get_fs. simpl. rewrite Hparent.
  unfold is_dir in Hout. by destruct (st_fs s !! output_path) as [[?|]|].
Qed.

Lemma combine_src_files_empty_dict_witness :
  exists_ (st_fs (state_of src_tree)) ["proj"; "src"] = true
  ∧ st_fs (state_of src_tree) !! parent (child run2 "combined_files.txt")
    = Some Dir
  ∧ is_dir (st_fs (state_of src_tree)) (child run2 "combined_files.txt") = false
  ∧ fst (combine_src_files ["proj"; "src"] (child run2 "combined_files.txt")
           (Some ∅) (state_of src_tree))
    = Ok (String newline "").
Proof.
  assert (H1 : exists_ (st_fs (state_of src_tree)) ["proj"; "src"] = true)
    by (vm_compute; reflexivity).
  assert (H2 : st_fs (state_of src_tree)
                 !! parent (child run2 "combined_files.txt") = Some Dir)
    by (vm_compute; reflexivity).
  assert (H3 : is_dir (st_fs (state_of src_tree))
                 (child run2 "combined_files.txt") = false)
    by (vm_compute; reflexivity).
  refine (conj H1 (conj H2 (conj H3 _))).
  rewrite (combine_src_files_empty_dict ["proj"; "src"]
             (child run2 "combined_files.txt") (state_of src_tree) H1 H2 H3).
  reflexivity.
Defined.

(** ** Reading the manifest for a full run *)

(** X15: what [_load_all_files] makes of the manifest of the run. No
    [manifest.json]: [None], nothing logged. Text that is not JSON:
    [None], after one logged exception. A JSON object whose ["files"] is
    not an object: [None]. A JSON object without ["files"]: the empty
    selection. In none of these cases does the state change otherwise. *)
Theorem load_all_files_outcomes `{Collaborators}
    (root source_dir output_dir : Path) (s : State) :
  let manifest_path := child output_dir "manifest.json" in
  (is_file (st_fs s) manifest_path = false →
     _load_all_files root source_dir output_dir s = (Ok None, s))
  ∧ (∀ text,
       st_fs s !! manifest_path = Some (File text) →
       json_loads text = None →
       _load_all_files root source_dir output_dir s =
         (Ok None, add_log s EXCEPTION "Failed to read manifest: %s"))
  ∧ (∀ text kvs files,
       st_fs s !! manifest_path = Some (File text) →
       json_loads text = Some (JObj kvs) →
       dict_get kvs "files" = Some files →
       (∀ entries, files ≠ JObj entries) →
       _load_all_files root source_dir output_dir s = (Ok None, s))
  ∧ (∀ text kvs rel,
       st_fs s !! manifest_path = Some (File text) →
       json_loads text = Some (JObj kvs) →
       dict_get kvs "files" = None →
       relative_to source_dir root = Some rel →
       _load_all_files root source_dir output_dir s = (Ok (Some ∅), s)).
Proof.
  intros manifest_path. split_and!.
  - intros Hf. unfold _load_all_files, bind, get_fs. fold manifest_path.
    by rewrite Hf.
  - intros text Hm Hj. unfold _load_all_files, bind, get_fs, is_file.
    fold manifest_path. rewrite Hm. simpl.
    unfold try_except, read_text, bind, get_fs. rewrite Hm. simpl.
    by rewrite Hj.
  - intros text kvs files Hm Hj Hfiles Hno.
    unfold _load_all_files, bind, get_fs, is_file.
    fold manifest_path. rewrite Hm. simpl.
    unfold try_except, read_text, bind, get_fs. rewrite Hm. simpl.
    rewrite Hj. simpl. rewrite Hfiles. simpl.
    destruct files; try done. by destruct (Hno kvs0).
  - intros text kvs rel Hm Hj Hfiles Hrel.
    unfold _load_all_files, bind, get_fs, is_file.
    fold manifest_path. rewrite Hm. simpl.
    unfold try_except, read_text, bind, get_fs. rewrite Hm. simpl.
    rewrite Hj. simpl. rewrite Hfiles. simpl. rewrite Hrel.
    by case_bool_decide.
Qed.

(** X16: a manifest whose JSON is not an object is not caught: the
    lookup of ["files"] raises [AttributeError], which leaves
    [_load_all_files] and the full run with it, before anything is
    written. *)
Theorem generate_overview_manifest_not_object `{Collaborators}
    (folder output_dir : Path) (overview_model : option string) (s : State)
    (text : string) (payload : json) :
  st_fs s !! child output_dir "manifest.json" = Some (File text) →
  json_loads text = Some payload →
  (∀ kvs, payload ≠ JObj kvs) →
  (∀ source_dir,
     _load_all_files folder source_dir output_dir s = (Raise AttributeError, s))
  ∧ _generate_overview_diagram folder output_dir overview_model s =
      (Raise AttributeError, s).
Proof.
  intros Hm Hj Hno.
  assert (Hload : ∀ source_dir,
    _load_all_files folder source_dir output_dir s = (Raise AttributeError, s)).
  { intros source_dir. unfold _load_all_files, bind, get_fs, is_file.
    rewrite Hm. simpl.
    unfold try_except, read_text, bind, get_fs. rewrite Hm. simpl.
    rewrite Hj. simpl. destruct payload; try done. by destruct (Hno kvs). }
  split; [done|].
  unfold _generate_overview_diagram, bind at 1, get_fs. cbn beta iota.
  unfold bind at 1. by rewrite Hload.
Qed.

Lemma set_to_map_added_empty :
  set_to_map (λ path : string, (path, "added")) (∅ : gset string)
  = (∅ : gmap string string).
Proof. unfold set_to_map. by rewrite elements_empty. Qed.

(** X17: a manifest that is a JSON object without ["files"] selects no
    file at all: the full run writes a combined text of one newline and
    asks the schema service about that; when the service then fails,
    the run ends in [None]. *)
Theorem generate_overview_manifest_without_files `{Collaborators}
    (folder output_dir : Path) (overview_model : option string) (s : State)
    (text : string) (kvs : list (string * json)) (e : exn) :
  let source_dir :=
    if is_dir (st_fs s) (child folder "src") then child folder "src" else folder in
  let combined_path := child output_dir "combined_files.txt" in
  st_fs s !! child output_dir "manifest.json" = Some (File text) →
  json_loads text = Some (JObj kvs) →
  dict_get kvs "files" = None →
  exists_ (st_fs s) source_dir = true →
  st_fs s !! output_dir = Some Dir →
  is_dir (st_fs s) combined_path = false →
  generate_overview_schema (String newline "") (model_or_default overview_model)
    = Raise e →
  _generate_overview_diagram folder output_dir overview_model s =
    (Ok None,
     add_log (set_fs s (<[combined_path := File (String newline "")]> (st_fs s)))
       EXCEPTION "OpenAI request failed: %s").
Proof.
  intros source_dir combined_path Hm Hj Hfiles Hsrc Hout Hcomb Hfail.
  destruct (orchestrator_source_dir_relative (st_fs s) folder) as [Hrel|Hrel];
    fold source_dir in Hrel.
  all: destruct (load_all_files_outcomes folder source_dir output_dir s)
         as (_ & _ & _ & Hempty);
       specialize (Hempty text kvs _ Hm Hj Hfiles Hrel);
       unfold _generate_overview_diagram, bind at 1, get_fs; cbn beta iota;
       fold source_dir; unfold bind at 1; rewrite Hempty;
       rewrite set_to_map_added_empty; unfold bind at 1;
       rewrite (combine_src_files_empty_dict source_dir
                  (child output_dir "combined_files.txt") s Hsrc)
         by (by rewrite ?parent_child);
       rewrite Hfail; reflexivity.
Qed.

(** ** Forwarding artifacts *)





(** ** Changed files at the root *)

(** X20: when the source directory is the project root and there are
    changes, [_load_changed_files] records exactly the non-empty changed
    paths that are deleted or still have their file: a deleted path as
    deleted, an added path with its file as added, any other changed
    path with its file as updated. *)
Theorem load_changed_files_at_root `{Collaborators} (fs : FS)
    (root output_dir : Path) (summary : Summary) (paths : list string) :
  changed_paths_of fs root output_dir = Some (summary, paths) →
  paths ≠ [] →
  ∃ cf, _load_changed_files fs root root output_dir = Some cf
    ∧ ∀ p,
        (p ∉ paths ∨ p = "" → cf !! p = None)
        ∧ (p ∈ paths → p ≠ "" → p ∈ deleted summary →
             cf !! p = Some "deleted")
        ∧ (p ∈ paths → p ≠ "" → p ∉ deleted summary →
             is_file fs (joinpath root p) = false → cf !! p = None)
        ∧ (p ∈ paths → p ≠ "" → p ∉ deleted summary →
             is_file fs (joinpath root p) = true →
             cf !! p = Some (if bool_decide (p ∈ added summary)
                             then "added" else "updated")).
Proof.
  intros Hcp Hne.
  assert (Hrel : relative_to root root = Some []).
  { clear. induction root as [|x r IH]; [done|]. simpl.
    by rewrite bool_decide_eq_true_2. }
  destruct (load_changed_lookup fs root root output_dir summary paths []
              Hcp Hne Hrel) as (cf & Hload & Hlook).
  exists cf. split; [done|]. intros p.
  assert (Hex : Exists (λ q, rebase (source_prefix []) q = Some p) paths
                ↔ p ∈ paths ∧ p ≠ "").
  { rewrite Exists_exists. split.
    - intros (q & Hq & [-> Hp]%rebase_Some). done.
    - intros [Hp Hnp]. exists p. split; [done|]. by apply rebase_Some. }
  rewrite Hlook. split_and!.
  - intros Hout. rewrite bool_decide_eq_false_2; [done|].
    rewrite Hex. intros [? ?]. destruct Hout; done.
  - intros Hp Hnp Hd. rewrite bool_decide_eq_true_2 by (by apply Hex).
    unfold status_of. by rewrite bool_decide_eq_true_2.
  - intros Hp Hnp Hd Hf. rewrite bool_decide_eq_true_2 by (by apply Hex).
    unfold status_of. rewrite bool_decide_eq_false_2 by done. by rewrite Hf.
  - intros Hp Hnp Hd Hf. rewrite bool_decide_eq_true_2 by (by apply Hex).
    unfold status_of. rewrite bool_decide_eq_false_2 by done. rewrite Hf.
    simpl. by case_bool_decide.
Qed.

(** ** The entry point *)

Lemma mkdir_parents_existing (p : Path) (s : State) :
  st_fs s !! p = Some Dir → mkdir_parents p s = (Ok tt, s).
Proof.
  intros Hp. unfold mkdir_parents.
  destruct (length p); simpl; unfold bind, get_fs; by rewrite Hp.
Qed.

(** X21: an update asked of [generate_diagram] without an output
    directory never generates anything. The run directory it creates is
    new and holds no [manifest.json], so [_load_changed_files] has no
    current manifest to read: the call creates the directory, logs that
    no source changes were detected and returns [None]. *)
Theorem generate_diagram_update_without_output_dir `{Collaborators}
    (now : datetime) (rnd : N) (folder : Path) (overview_model : option string)
    (s : State) :
  let unslop_dir := child folder ".unslop" in
  let run_dir := child unslop_dir (run_dir_name now rnd) in
  wf_fs (st_fs s) →
  st_fs s !! folder = Some Dir →
  st_fs s !! run_dir = None →
  ∃ s', generate_diagram now rnd folder None true overview_model s = (Ok None, s')
    ∧ st_fs s' = <[run_dir := Dir]> (<[unslop_dir := Dir]> (st_fs s))
    ∧ st_threads s' = st_threads s
    ∧ st_log s' = st_log s ++
        [{| lr_level := INFO; lr_msg := "Preparing overview diagram for %s ..." |};
         {| lr_level := INFO;
            lr_msg := "No source changes detected; skipping overview update." |}].
Proof.
  intros unslop_dir run_dir Hwf Hroot Hfresh.
  assert (Hmanifest : st_fs s !! child run_dir "manifest.json" = None).
  { destruct (st_fs s !! child run_dir "manifest.json") as [x|] eqn:Hx; [|done].
    apply Hwf in Hx. rewrite parent_child, Hfresh in Hx.
    by specialize (Hx (child_ne_nil _ _)). }
  unfold generate_diagram, bind at 1, logger. cbn beta iota.
  unfold bind at 1.
  rewrite (create_run_dir_run now rnd folder (add_log s INFO _)) by done.
  fold unslop_dir run_dir. unfold bind at 1.
  rewrite mkdir_parents_existing by (simpl; apply lookup_insert_eq).
  unfold bind at 1. rewrite update_skips.
  - eexists. split; [reflexivity|]. simpl. split_and!; try done.
    by rewrite <- app_assoc.
  - left. rewrite load_changed_files_eq. unfold changed_paths_of, is_file.
    simpl.
    rewrite lookup_insert_ne
      by (intros Heq; by apply (child_ne_parent run_dir "manifest.json")).
    rewrite lookup_insert_ne, Hmanifest; [done|].
    unfold run_dir, unslop_dir, child. intros Heq.
    apply (f_equal length) in Heq. rewrite !length_app in Heq. simpl in Heq. lia.
Qed.

Lemma generate_diagram_update_without_output_dir_witness :
  ∃ s', @generate_diagram same_collaborators clock_2026 42 ["proj"] None true None
          (state_of src_tree) = (Ok None, s')
        ∧ st_threads s' = [].
Proof.
  assert (Hwf : wf_fs (st_fs (state_of src_tree)))
    by (apply (bool_decide_unpack (wf_fs src_tree)); vm_compute; exact I).
  assert (Hroot : st_fs (state_of src_tree) !! ["proj"] = Some Dir)
    by (vm_compute; reflexivity).
  assert (Hfresh : st_fs (state_of src_tree)
                     !! child (child ["proj"] ".unslop")
                          (run_dir_name clock_2026 42) = None)
    by (vm_compute; reflexivity).
  destruct (generate_diagram_update_without_output_dir (H := same_collaborators)
              clock_2026 42 ["proj"] None (state_of src_tree) Hwf Hroot Hfresh)
    as (s' & Hrun & _ & Hth & _).
  exists s'. exact (conj Hrun Hth).
Defined.

(** ** The latest diagram *)

Lemma glob_d2_last fs run_dir :
  match last (merge_sort path_le (glob_d2 fs run_dir)) with
  | Some p => p ∈ iterdir fs run_dir ∧ endswith (name p) ".d2" = true
  | None => ¬ has_d2 fs run_dir
  end.
Proof.
  destruct (last _) as [p|] eqn:Hlast.
  - apply last_Some_elem_of in Hlast. rewrite merge_sort_Permutation in Hlast.
    apply list_elem_of_filter in Hlast as [He Hin]. split; [done|].
    by apply Is_true_true.
  - apply last_None in Hlast. intros (q & Hq & He).
    assert (Hin : q ∈ merge_sort path_le (glob_d2 fs run_dir)).
    { rewrite merge_sort_Permutation. apply list_elem_of_filter.
      split; [by apply Is_true_true|done]. }
    rewrite Hlast in Hin. by apply elem_of_nil in Hin.
Qed.

Lemma latest_diagram_loop_spec fs runs :
  match latest_diagram_loop fs runs with
  | Some p =>
      ∃ l1 r l2, runs = l1 ++ r :: l2
        ∧ (∀ r', r' ∈ l1 → ¬ has_d2 fs r')
        ∧ p ∈ iterdir fs r ∧ endswith (name p) ".d2" = true
        ∧ (is_file fs (child r "overview.d2") = true → p = child r "overview.d2")
  | None => ∀ r, r ∈ runs → ¬ has_d2 fs r
  end.
Proof.
  induction runs as [|r runs IH]; cbn [latest_diagram_loop].
  - intros r Hr. by apply elem_of_nil in Hr.
  - destruct (is_file fs (child r "overview.d2")) eqn:Hov.
    + exists [], r, runs. split_and!; try done.
      * intros r' Hr'. by apply elem_of_nil in Hr'.
      * apply elem_of_iterdir. rewrite parent_child.
        split; [apply child_ne_nil|]. split; [done|].
        unfold is_file in Hov.
        destruct (fs !! child r "overview.d2") as [x|]; [by exists x|done].
      * by rewrite name_child.
    + pose proof (glob_d2_last fs r) as Hglob.
      destruct (last (merge_sort path_le (glob_d2 fs r))) as [p|].
      * destruct Hglob as [Hin He]. exists [], r, runs.
        split_and!; try done;
          [intros r' Hr'; by apply elem_of_nil in Hr' | intros Hc; congruence].
      * destruct (latest_diagram_loop fs runs) as [p|].
        -- destruct IH as (l1 & r0 & l2 & -> & Hnone & Hin & He & Hov').
           exists (r :: l1), r0, l2. split_and!; try done.
           intros r' [->|Hr']%elem_of_cons; [done|by apply Hnone].
        -- intros r' [->|Hr']%elem_of_cons; [done|by apply IH].
Qed.

(** X22: [latest_diagram] looks through the run directories from the
    newest to the oldest and answers from the first that holds an entry
    whose name ends in [.d2]: its [overview.d2] when that is a file, an
    entry ending in [.d2] otherwise. Every run directory holding such an
    entry is that one or sorts before it; [None] means that no run
    directory holds any. *)
Theorem latest_diagram_newest_first (fs : FS) (folder : Path) :
  match latest_diagram fs folder with
  | Some p =>
      ∃ r, r ∈ list_run_dirs fs folder
        ∧ parent p = r ∧ p ≠ [] ∧ is_Some (fs !! p)
        ∧ endswith (name p) ".d2" = true
        ∧ (is_file fs (child r "overview.d2") = true → p = child r "overview.d2")
        ∧ ∀ r', r' ∈ list_run_dirs fs folder → has_d2 fs r' → name_le r' r
  | None => ∀ r, r ∈ list_run_dirs fs folder → ¬ has_d2 fs r
  end.
Proof.
  unfold latest_diagram.
  pose proof (latest_diagram_loop_spec fs (reverse (list_run_dirs fs folder)))
    as Hloop.
  destruct (latest_diagram_loop fs (reverse (list_run_dirs fs folder))) as [p|].
  - destruct Hloop as (l1 & r & l2 & Hrev & Hnone & Hin & He & Hov).
    assert (Hruns : list_run_dirs fs folder = reverse l2 ++ r :: reverse l1).
    { rewrite <- (reverse_involutive (list_run_dirs fs folder)), Hrev.
      rewrite reverse_app, reverse_cons, <- app_assoc. done. }
    apply elem_of_iterdir in Hin as (Hne & Hpar & Hsome).
    exists r. split_and!; try done.
    + rewrite Hruns. apply elem_of_app. right. by left.
    + intros r' Hr' Hd2. rewrite Hruns in Hr'.
      pose proof (list_run_dirs_sorted fs folder) as Hsorted.
      rewrite Hruns in Hsorted.
      apply elem_of_app in Hr' as [Hr'|Hr'].
      * clear -Hsorted Hr'. induction (reverse l2) as [|x l IH];
          [by apply elem_of_nil in Hr'|].
        simpl in Hsorted. apply StronglySorted_inv in Hsorted as [Hs Hall].
        apply elem_of_cons in Hr' as [->|Hr']; [|by apply IH].
        rewrite Forall_forall in Hall. apply Hall, elem_of_app. right. by left.
      * apply elem_of_cons in Hr' as [->|Hr'].
        -- destruct (name_le_total r r); done.
        -- exfalso. apply (Hnone r'); [|done].
           by rewrite elem_of_reverse in Hr'.
  - intros r Hr. apply Hloop. by rewrite elem_of_reverse.
Qed.

(** ** Rendering *)


(** ** Worked instances *)

Lemma find_d2_bin_prefers_environment_witness :
  @environ_UNSLOP_D2_BIN d2_collaborators = Some "/opt/d2/bin/d2"
  ∧ "/opt/d2/bin/d2" ≠ ""
  ∧ @_is_valid_d2_bin d2_collaborators "/opt/d2/bin/d2" = true
  ∧ @find_d2_bin d2_collaborators = Some "/opt/d2/bin/d2".
Proof.
  assert (H1 : @environ_UNSLOP_D2_BIN d2_collaborators = Some "/opt/d2/bin/d2")
    by reflexivity.
  assert (H2 : "/opt/d2/bin/d2" ≠ "") by discriminate.
  assert (H3 : @_is_valid_d2_bin d2_collaborators "/opt/d2/bin/d2" = true)
    by reflexivity.
  refine (conj H1 (conj H2 (conj H3 _))).
  exact (find_d2_bin_prefers_environment (H := d2_collaborators) _ H1 H2 H3).
Defined.

Lemma prepare_none_leaves_state_witness :
  ∃ s', @_prepare_node_diagram_inputs reuse_collaborators
          (child run2 "overview.json") run2 None (state_of reuse_tree)
        = (Ok None, s')
      ∧ s' = state_of reuse_tree.
Proof.
  assert (Hrun : @_prepare_node_diagram_inputs reuse_collaborators
                   (child run2 "overview.json") run2 None (state_of reuse_tree)
                 = (Ok None, state_of reuse_tree)) by reflexivity.
  exists (state_of reuse_tree). split; [exact Hrun|].
  exact (prepare_none_leaves_state (H := reuse_collaborators) _ _ _ _ _ Hrun).
Defined.

Lemma generate_overview_manifest_not_object_witness :
  st_fs (state_of src_tree) !! child run2 "manifest.json" = Some (File "{}")
  ∧ @json_loads (json_collaborators (Some (JArr [])) (Ok "{}")) "{}"
    = Some (JArr [])
  ∧ (∀ kvs, JArr [] ≠ JObj kvs)
  ∧ @_generate_overview_diagram (json_collaborators (Some (JArr [])) (Ok "{}"))
      ["proj"] run2 None (state_of src_tree)
    = (Raise AttributeError, state_of src_tree).
Proof.
  assert (H1 : st_fs (state_of src_tree) !! child run2 "manifest.json"
               = Some (File "{}")) by (vm_compute; reflexivity).
  assert (H2 : @json_loads (json_collaborators (Some (JArr [])) (Ok "{}")) "{}"
               = Some (JArr [])) by reflexivity.
  assert (H3 : ∀ kvs, JArr [] ≠ JObj kvs) by (intros kvs; discriminate).
  refine (conj H1 (conj H2 (conj H3 _))).
  exact (proj2 (generate_overview_manifest_not_object
                  (H := json_collaborators (Some (JArr [])) (Ok "{}"))
                  ["proj"] run2 None (state_of src_tree) "{}" (JArr []) H1 H2 H3)).
Defined.

Lemma generate_overview_manifest_without_files_witness :
  fst (@_generate_overview_diagram
         (json_collaborators (Some (JObj [])) (Raise (ServiceError "down")))
         ["proj"] run2 None (state_of src_tree))
  = Ok None.
Proof.
  assert (H1 : st_fs (state_of src_tree) !! child run2 "manifest.json"
               = Some (File "{}")) by (vm_compute; reflexivity).
  assert (H2 : @json_loads
                 (json_collaborators (Some (JObj [])) (Raise (ServiceError "down")))
                 "{}" = Some (JObj [])) by reflexivity.
  assert (H3 : dict_get [] "files" = None) by reflexivity.
  assert (H4 : exists_ (st_fs (state_of src_tree))
                 (if is_dir (st_fs (state_of src_tree)) (child ["proj"] "src")
                  then child ["proj"] "src" else ["proj"]) = true)
    by (vm_compute; reflexivity).
  assert (H5 : st_fs (state_of src_tree) !! run2 = Some Dir)
    by (vm_compute; reflexivity).
  assert (H6 : is_dir (st_fs (state_of src_tree))
                 (child run2 "combined_files.txt") = false)
    by (vm_compute; reflexivity).
  assert (H7 : @generate_overview_schema
                 (json_collaborators (Some (JObj [])) (Raise (ServiceError "down")))
                 (String newline "") (model_or_default None)
               = Raise (ServiceError "down")) by reflexivity.
  rewrite (generate_overview_manifest_without_files
             (H := json_collaborators (Some (JObj [])) (Raise (ServiceError "down")))
             ["proj"] run2 None (state_of src_tree) "{}" []
             (ServiceError "down") H1 H2 H3 H4 H5 H6 H7).
  reflexivity.
Defined.



Lemma load_changed_files_at_root_witness :
  ∃ cf, @_load_changed_files flat_collaborators flat_tree ["proj"] ["proj"] run2
          = Some cf
        ∧ cf !! "a.py" = Some "deleted".
Proof.
  assert (Hcp : @changed_paths_of flat_collaborators flat_tree ["proj"] run2
                = Some ({| added := []; modified := ["keep.py"];
                           deleted := ["a.py"] |}, ["keep.py"; "a.py"]))
    by (vm_compute; reflexivity).
  assert (Hne : ["keep.py"; "a.py"] ≠ []) by discriminate.
  destruct (load_changed_files_at_root (H := flat_collaborators) flat_tree
              ["proj"] run2 _ _ Hcp Hne) as (cf & Hload & Hcf).
  exists cf. split; [exact Hload|].
  apply (Hcf "a.py").
  - apply elem_of_cons. right. apply elem_of_cons. left. reflexivity.
  - discriminate.
  - apply elem_of_cons. left. reflexivity.
Defined.

